(** * Deployment-impact analyzer: a shallow embedding of
    [pr_agent/tools/pr_deployment_impact.py] and [web_app/app.py].

    The Python code is stateful (the analyzer object, the global settings
    object returned by [get_settings()], the comments on the pull request)
    and fallible (every collaborator call may raise).  It is embedded in a
    state-and-exception monad [M] over a [World]; the collaborators that are
    not part of these files (git provider, AI handler, diff budgeter, Jinja2
    parser, fallback controller) are fields of an environment record whose
    answers may depend on the history of calls made so far. *)

From Stdlib Require Import String Ascii List ZArith Bool Lia.
From stdpp Require Import base option list strings gmap.

Open Scope string_scope.
Open Scope list_scope.

(** ** Python values and exceptions *)

(** IEEE-754 doubles are only passed through ([config.temperature]); they are
    kept by their bit pattern. *)
Inductive pyfloat : Type :=
| Float (bits : Z).

(** The Python values that flow through the analyzer. [VObject] stands for a
    module, class or function bound to a global name. *)
Inductive pyval : Type :=
| VNone
| VBool (b : bool)
| VStr (s : string)
| VObject (qualname : string).

(** [bool(v)]: the truth value tested by [if v] and [if not v]. *)
Definition truthy (v : pyval) : bool :=
  match v with
  | VNone => false
  | VBool b => b
  | VStr s => negb (String.eqb s "")
  | VObject _ => true
  end.

(** [str(v)], as Jinja2 prints a value in an output node. *)
Definition py_str (v : pyval) : string :=
  match v with
  | VNone => "None"
  | VBool true => "True"
  | VBool false => "False"
  | VStr s => s
  | VObject q => q
  end.

(** Exceptions. [CancelledError] and [KeyboardInterrupt] derive from
    [BaseException] only; all the others derive from [Exception].
    [UndefinedError] is Jinja2's error for a missing template variable (the
    TemplateRenderError of the design document). *)
Inductive exn : Type :=
| NameError (name : string)
| UnboundLocalError (name : string)
| TypeError (msg : string)
| UndefinedError (name : string)
| TransientFailure (msg : string)
| PermanentFailure (msg : string)
| OtherException (msg : string)
| CancelledError
| KeyboardInterrupt.

(** [isinstance(e, Exception)]: what [except Exception] catches. *)
Definition is_Exception (e : exn) : bool :=
  match e with
  | CancelledError | KeyboardInterrupt => false
  | _ => true
  end.

(** [str(e)]. *)
Definition exn_str (e : exn) : string :=
  match e with
  | NameError n => "name '" +:+ n +:+ "' is not defined"
  | UnboundLocalError n =>
      "cannot access local variable '" +:+ n +:+
      "' where it is not associated with a value"
  | UndefinedError n => "'" +:+ n +:+ "' is undefined"
  | TypeError m | TransientFailure m | PermanentFailure m | OtherException m => m
  | CancelledError | KeyboardInterrupt => ""
  end.

Inductive outcome (A : Type) : Type :=
| Ret (a : A)
| Raise (e : exn).
Arguments Ret {A} a.
Arguments Raise {A} e.

(** ** Observable calls *)

(** The calls whose effect is visible outside the analyzer: comments on the
    pull request, the completion request, standard output. *)
Inductive Call : Type :=
| publish_comment_call (text : string) (is_temporary : bool)
| publish_persistent_comment_call
    (text initial_header : string) (update_header : bool)
    (final_update_message : string)
| remove_initial_comment_call
| add_ai_metadata_call
| chat_completion_call (system user model : string) (temperature : pyfloat)
| print_call (text : string).

(** One entry of the history: the call and, when it raised, the exception. *)
Record Event : Type := mkEvent {
  ev_call : Call;
  ev_raised : option exn
}.

Definition history := list Event.

(** ** Collaborators *)

(** The git provider of one pull request.  Each answer may depend on the
    history so far. *)
Record GitProvider : Type := mkGitProvider {
  pr_title : string;
  get_languages : history -> outcome (list (string * Z));
  get_files : history -> outcome (list string);
  get_pr_description : history -> outcome (pyval * list string);
  get_pr_branch : history -> outcome string;
  get_commit_messages : history -> outcome string;
  publish_comment_raises : history -> string -> bool -> option exn;
  publish_persistent_comment_raises :
    history -> string -> string -> bool -> string -> option exn;
  remove_initial_comment_raises : history -> option exn
}.

(** The AI handler: one completion call returns [(response, finish_reason)]
    or raises. *)
Record AiHandler : Type := mkAiHandler {
  chat_completion_answer :
    history -> string -> string -> string -> pyfloat -> outcome (string * string)
}.

(** The token counter built by the constructor; only handed to the diff
    budgeter. *)
Record TokenHandler : Type := mkTokenHandler {
  prompt_tokens : Z
}.

(** ** Jinja2 templates *)

(** A parsed template: literal data and [{{ name }}] output nodes, the two
    constructs the compiled-in templates use. *)
Inductive Node : Type :=
| Data (text : string)
| Output (name : string).

Definition Template := list Node.

(** The [undefined] argument of [jinja2.Environment]. *)
Inductive undefined_policy : Type :=
| Undefined
| StrictUndefined.

Record Environment : Type := mkEnvironment {
  undefined : undefined_policy
}.

(** ** Settings, analyzer object, world *)

(** [get_settings().pr_deployment_impact]; a field is [None] when
    [hasattr] answers [False] for it. *)
Record ImpactSection : Type := mkImpactSection {
  extra_instructions : option string;
  persistent_comment : option bool;
  final_update_message_setting : option string
}.

(** [get_settings().pr_deployment_impact_prompt]. *)
Record PromptSection : Type := mkPromptSection {
  prompt_system : option string;
  prompt_user : option string
}.

(** The global settings object. [config_is_auto_command] and
    [config_enable_ai_metadata] are read with [.get(key, False)], so they may
    be absent; [data] is the attribute written by [run]. *)
Record Settings : Type := mkSettings {
  config_publish_output : bool;
  config_temperature : pyfloat;
  config_is_auto_command : option bool;
  config_enable_ai_metadata : option bool;
  pr_deployment_impact : option ImpactSection;
  pr_deployment_impact_prompt : option PromptSection;
  data : option (gmap string string)
}.

(** The attributes of one [PRDeploymentImpact] object. *)
Record Self : Type := mkSelf {
  git_provider : GitProvider;
  main_language : string;
  ai_handler : AiHandler;
  token_handler : TokenHandler;
  patches_diff : pyval;
  prediction : pyval;
  pr_url : pyval;
  cli_mode : bool;
  pr_description : pyval;
  pr_description_files : list string;
  vars : gmap string pyval;
  progress : string
}.

(** The world: the shared settings, the analyzer object of the current flow,
    and the history of observable calls (oldest first). *)
Record World : Type := mkWorld {
  settings : Settings;
  this : Self;
  trace : history
}.

(** ** The monad *)

Definition M (A : Type) : Type := World -> outcome A * World.

#[global] Instance M_ret : MRet M := fun A a w => (Ret a, w).
#[global] Instance M_bind : MBind M := fun A B f m w =>
  match m w with
  | (Ret a, w') => f a w'
  | (Raise e, w') => (Raise e, w')
  end.

Definition raise {A} (e : exn) : M A := fun w => (Raise e, w).

(** [try: body except Exception as e: handler e]. *)
Definition try_except_Exception {A} (body : M A) (handler : exn -> M A) : M A :=
  fun w =>
    match body w with
    | (Raise e, w') => if is_Exception e then handler e w' else (Raise e, w')
    | r => r
    end.

(** [try: body except: handler] (a bare [except] also catches
    [BaseException]). *)
Definition try_except {A} (body : M A) (handler : M A) : M A :=
  fun w =>
    match body w with
    | (Raise _, w') => handler w'
    | r => r
    end.

Definition get_settings : M Settings := fun w => (Ret (settings w), w).
Definition get_self : M Self := fun w => (Ret (this w), w).
Definition get_history : M history := fun w => (Ret (trace w), w).

Definition put_settings (s : Settings) : M unit :=
  fun w => (Ret tt, mkWorld s (this w) (trace w)).
Definition put_self (o : Self) : M unit :=
  fun w => (Ret tt, mkWorld (settings w) o (trace w)).

(** A read-only collaborator call: ask the oracle at the current history. *)
Definition ask {A} (oracle : history -> outcome A) : M A :=
  fun w => (oracle (trace w), w).

Definition lift {A} (r : outcome A) : M A := fun w => (r, w).

(** An observable call: it is appended to the history with its outcome, and
    the exception, if any, is raised in the caller. *)
Definition perform (c : Call) (raised : option exn) : M unit :=
  fun w =>
    let w' := mkWorld (settings w) (this w) (trace w ++ [mkEvent c raised]) in
    match raised with
    | None => (Ret tt, w')
    | Some e => (Raise e, w')
    end.

(** Logging has no effect on the world. *)
Definition log (level msg : string) : M unit := mret tt.

(** ** Setters *)

Definition set_publish_output (b : bool) (s : Settings) : Settings :=
  mkSettings b (config_temperature s) (config_is_auto_command s)
    (config_enable_ai_metadata s) (pr_deployment_impact s)
    (pr_deployment_impact_prompt s) (data s).

Definition set_enable_ai_metadata (b : bool) (s : Settings) : Settings :=
  mkSettings (config_publish_output s) (config_temperature s)
    (config_is_auto_command s) (Some b) (pr_deployment_impact s)
    (pr_deployment_impact_prompt s) (data s).

Definition set_data (d : gmap string string) (s : Settings) : Settings :=
  mkSettings (config_publish_output s) (config_temperature s)
    (config_is_auto_command s) (config_enable_ai_metadata s)
    (pr_deployment_impact s) (pr_deployment_impact_prompt s) (Some d).

Definition set_patches_diff (v : pyval) (o : Self) : Self :=
  mkSelf (git_provider o) (main_language o) (ai_handler o) (token_handler o)
    v (prediction o)
    (pr_url o) (cli_mode o) (pr_description o) (pr_description_files o)
    (vars o) (progress o).

Definition set_prediction (v : pyval) (o : Self) : Self :=
  mkSelf (git_provider o) (main_language o) (ai_handler o) (token_handler o)
    (patches_diff o) v
    (pr_url o) (cli_mode o) (pr_description o) (pr_description_files o)
    (vars o) (progress o).

Definition set_vars (m : gmap string pyval) (o : Self) : Self :=
  mkSelf (git_provider o) (main_language o) (ai_handler o) (token_handler o)
    (patches_diff o) (prediction o) (pr_url o) (cli_mode o) (pr_description o)
    (pr_description_files o) m (progress o).

Definition modify_settings (f : Settings -> Settings) : M unit :=
  s ← get_settings; put_settings (f s).
Definition modify_self (f : Self -> Self) : M unit :=
  o ← get_self; put_self (f o).

(** ** The environment *)

Inductive ModelType : Type :=
| REGULAR.

(** What the analyzer imports and does not define.  [get_pr_diff] is the diff
    budgeter, [jinja_from_string] is [Environment.from_string] (the Jinja2
    parser), [retry_with_fallback_models] is the fallback controller of
    [pr_agent.algo.pr_processing]: it receives the per-model callback and
    drives it. *)
Record Env : Type := mkEnv {
  get_git_provider_with_context : pyval -> outcome GitProvider;
  get_main_pr_language : list (string * Z) -> list string -> outcome string;
  new_ai_handler : outcome AiHandler;
  add_ai_metadata_to_diff_files_raises : history -> option exn;
  new_TokenHandler : gmap string pyval -> string -> string -> outcome TokenHandler;
  today : string;
  get_pr_diff :
    GitProvider -> TokenHandler -> string -> bool -> bool -> history ->
    outcome string;
  jinja_from_string : string -> outcome Template;
  retry_with_fallback_models : (string -> M unit) -> ModelType -> M unit
}.

(** ** Provider calls made by the analyzer *)

Definition publish_comment (text : string) (is_temporary : bool) : M unit :=
  o ← get_self; h ← get_history;
  perform (publish_comment_call text is_temporary)
          (publish_comment_raises (git_provider o) h text is_temporary).

Definition publish_persistent_comment
    (text initial_header : string) (update_header : bool)
    (final_update_message : string) : M unit :=
  o ← get_self; h ← get_history;
  perform
    (publish_persistent_comment_call text initial_header update_header
       final_update_message)
    (publish_persistent_comment_raises (git_provider o) h text initial_header
       update_header final_update_message).

Definition remove_initial_comment : M unit :=
  o ← get_self; h ← get_history;
  perform remove_initial_comment_call
          (remove_initial_comment_raises (git_provider o) h).

Definition print (text : string) : M unit :=
  perform (print_call text) None.

(** [await self.ai_handler.chat_completion(system=..., user=..., model=...,
    temperature=...)]. *)
Definition chat_completion
    (system user model : string) (temperature : pyfloat) : M (string * string) :=
  o ← get_self; h ← get_history;
  let answer :=
    chat_completion_answer (ai_handler o) h system user model temperature in
  perform (chat_completion_call system user model temperature)
          (match answer with Ret _ => None | Raise e => Some e end);;
  lift answer.

(** ** Name resolution in [_get_prediction] *)

(** The names bound at module level of [pr_deployment_impact.py]: its
    imports and its one class. *)
Definition module_globals : list string :=
  [ "asyncio"; "copy"; "traceback"; "datetime"; "partial"; "Dict"; "List";
    "Optional"; "Environment"; "StrictUndefined"; "BaseAiHandler";
    "LiteLLMAIHandler"; "add_ai_metadata_to_diff_files"; "get_pr_diff";
    "retry_with_fallback_models"; "TokenHandler"; "ModelType"; "load_yaml";
    "get_settings"; "get_git_provider_with_context"; "get_main_pr_language";
    "get_logger"; "PRDeploymentImpact"; "__name__"; "__doc__"; "__package__";
    "__loader__"; "__spec__"; "__file__"; "__cached__"; "__builtins__" ].

(** The builtin functions, constants and the exception classes of Python 3. *)
Definition builtins : list string :=
  [ "abs"; "aiter"; "all"; "anext"; "any"; "ascii"; "bin"; "bool";
    "breakpoint"; "bytearray"; "bytes"; "callable"; "chr"; "classmethod";
    "compile"; "complex"; "delattr"; "dict"; "dir"; "divmod"; "enumerate";
    "eval"; "exec"; "filter"; "float"; "format"; "frozenset"; "getattr";
    "globals"; "hasattr"; "hash"; "help"; "hex"; "id"; "input"; "int";
    "isinstance"; "issubclass"; "iter"; "len"; "list"; "locals"; "map";
    "max"; "memoryview"; "min"; "next"; "object"; "oct"; "open"; "ord";
    "pow"; "print"; "property"; "range"; "repr"; "reversed"; "round"; "set";
    "setattr"; "slice"; "sorted"; "staticmethod"; "str"; "sum"; "super";
    "tuple"; "type"; "vars"; "zip"; "__import__"; "__build_class__";
    "__debug__"; "__doc__"; "__loader__"; "__name__"; "__package__";
    "__spec__"; "copyright"; "credits"; "exit"; "license"; "quit";
    "Ellipsis"; "NotImplemented"; "False"; "True"; "None";
    "BaseException"; "BaseExceptionGroup"; "Exception"; "ExceptionGroup";
    "GeneratorExit"; "KeyboardInterrupt"; "SystemExit"; "ArithmeticError";
    "AssertionError"; "AttributeError"; "BlockingIOError";
    "BrokenPipeError"; "BufferError"; "BytesWarning"; "ChildProcessError";
    "ConnectionAbortedError"; "ConnectionError"; "ConnectionRefusedError";
    "ConnectionResetError"; "DeprecationWarning"; "EOFError";
    "EncodingWarning"; "EnvironmentError"; "FileExistsError";
    "FileNotFoundError"; "FloatingPointError"; "FutureWarning"; "IOError";
    "ImportError"; "ImportWarning"; "IndentationError"; "IndexError";
    "InterruptedError"; "IsADirectoryError"; "KeyError"; "LookupError";
    "MemoryError"; "ModuleNotFoundError"; "NameError"; "NotADirectoryError";
    "NotImplementedError"; "OSError"; "OverflowError";
    "PendingDeprecationWarning"; "PermissionError"; "ProcessLookupError";
    "RecursionError"; "ReferenceError"; "ResourceWarning"; "RuntimeError";
    "RuntimeWarning"; "StopAsyncIteration"; "StopIteration"; "SyntaxError";
    "SyntaxWarning"; "SystemError"; "TabError"; "TimeoutError"; "TypeError";
    "UnboundLocalError"; "UnicodeDecodeError"; "UnicodeEncodeError";
    "UnicodeError"; "UnicodeTranslateError"; "UnicodeWarning"; "UserWarning";
    "ValueError"; "Warning"; "ZeroDivisionError" ].

(** The names [_get_prediction] assigns (its parameters included): the
    compiler makes exactly these its local variables. *)
Definition _get_prediction_locals : list string :=
  [ "self"; "model"; "system_prompt"; "user_prompt"; "env";
    "system_prompt_template"; "user_prompt_template"; "e"; "response";
    "finish_reason" ].

(** The names [__init__] assigns. *)
Definition __init___locals : list string :=
  [ "self"; "pr_url"; "cli_mode"; "args"; "ai_handler";
    "default_system_prompt"; "default_user_prompt"; "system_prompt";
    "user_prompt" ].

Definition name_in (name : string) (names : list string) : bool :=
  existsb (String.eqb name) names.

(** Reading a name that the function does not assign: a method body has no
    enclosing function scope, so the name is looked up in the module globals
    and then in the builtins, and the lookup raises [NameError] when both
    miss. *)
Definition load_global (name : string) : M pyval :=
  if name_in name module_globals || name_in name builtins
  then mret (VObject name)
  else raise (NameError name).

(** Reading [name] in a function that assigns the names [locals].  The
    locals that have a value are variables of the embedding, so a local read
    through [load_name] is one that has no value yet. *)
Definition load_name (locals : list string) (name : string) : M pyval :=
  if name_in name locals
  then raise (UnboundLocalError name)
  else load_global name.

(** ** Rendering *)

(** [Template.render] on the parsed nodes, left to right, with the keyword
    arguments as context.  An output
    node prints [str] of the variable's value; for a variable that the
    context lacks, [StrictUndefined] raises [UndefinedError] and the default
    [Undefined] prints the empty string. *)
Fixpoint render (u : undefined_policy) (t : Template) (ctx : gmap string pyval)
  : outcome string :=
  match t with
  | [] => Ret ""
  | Data s :: t' =>
      match render u t' ctx with
      | Ret r => Ret (s +:+ r)
      | Raise e => Raise e
      end
  | Output x :: t' =>
      match ctx !! x, u with
      | None, StrictUndefined => Raise (UndefinedError x)
      | ov, _ =>
          match render u t' ctx with
          | Ret r => Ret (from_option py_str "" ov +:+ r)
          | Raise e => Raise e
          end
      end
  end.

(** The variables a template refers to, in order. *)
Definition referenced (t : Template) : list string :=
  flat_map (fun n => match n with Output x => [x] | Data _ => [] end) t.

(** An output without unresolved placeholder, piece by piece: literal data
    is copied, and the place of an output node holds [str] of the value the
    context has for its variable. *)
Inductive resolved (ctx : gmap string pyval) : Node -> string -> Prop :=
| resolved_data (text : string) : resolved ctx (Data text) text
| resolved_output (x : string) (v : pyval) :
    ctx !! x = Some v -> resolved ctx (Output x) (py_str v).

Definition join (pieces : list string) : string :=
  fold_right String.append "" pieces.

(** A template object: the nodes and the environment it was created in. *)
Record CompiledTemplate : Type := mkCompiledTemplate {
  tpl_environment : Environment;
  tpl_nodes : Template
}.

(** [env.from_string(source)]. *)
Definition from_string (env : Env) (jenv : Environment) (source : pyval)
  : M CompiledTemplate :=
  match source with
  | VStr s => nodes ← lift (jinja_from_string env s);
              mret (mkCompiledTemplate jenv nodes)
  | _ => raise (TypeError "Can't compile non template nodes")
  end.

Definition Template_render (t : CompiledTemplate) (ctx : gmap string pyval)
  : M string :=
  lift (render (undefined (tpl_environment t)) (tpl_nodes t) ctx).

(** ** Strings of the source *)

Definition LF : string := String "010"%char "".
Definition DQ : string := String "034"%char "".

(** The header of [_prepare_deployment_impact_analysis], byte for byte as the
    source file has it. *)
Definition report_header : string :=
  "# Deployment Impact Analysis ðŸš€" +:+ LF +:+ LF.

Definition persistent_header : string :=
  "## Deployment Impact Analysis ðŸš€".

Definition failure_notice : string :=
  "Failed to analyze deployment impact. See logs for more details.".

Definition progress_text : string :=
  "## Analyzing Deployment Impact" +:+ LF +:+ LF +:+
  LF +:+ "Work in progress ...<br>" +:+ LF +:+
  "<img src=" +:+ DQ +:+
  "https://codium.ai/images/pr_agent/dual_ball_loading-crop.gif" +:+ DQ +:+
  " width=48>".

(** ** The methods of [PRDeploymentImpact] *)

(** [_prepare_deployment_impact_analysis]: [header += self.prediction]. *)
Definition _prepare_deployment_impact_analysis : M string :=
  o ← get_self;
  match prediction o with
  | VStr p => mret (report_header +:+ p)
  | _ => raise (TypeError "can only concatenate str to str")
  end.

(** The prompt lookup of [_get_prediction]: the settings' override when the
    section and the attribute exist, else the name [default_name]. *)
Definition prompt_or_default
    (field : PromptSection -> option string) (default_name : string) : M pyval :=
  s ← get_settings;
  match pr_deployment_impact_prompt s with
  | Some sec =>
      match field sec with
      | Some text => mret (VStr text)
      | None => load_name _get_prediction_locals default_name
      end
  | None => load_name _get_prediction_locals default_name
  end.

Definition _get_prediction (env : Env) (model : string) : M string :=
  modify_self (fun o => set_vars (<["diff" := patches_diff o]> (vars o)) o);;
  log "info" "Generating deployment impact analysis...";;
  system_prompt ← prompt_or_default prompt_system "default_system_prompt";
  user_prompt ← prompt_or_default prompt_user "default_user_prompt";
  let jenv := mkEnvironment StrictUndefined in
  system_prompt_template ← from_string env jenv system_prompt;
  user_prompt_template ← from_string env jenv user_prompt;
  '(system_prompt, user_prompt) ←
    try_except_Exception
      (o ← get_self;
       system_prompt ← Template_render system_prompt_template (vars o);
       user_prompt ← Template_render user_prompt_template (vars o);
       mret (system_prompt, user_prompt))
      (fun e => log "error" ("Error rendering prompt template: " +:+ exn_str e);;
                raise e);
  s ← get_settings;
  '(response, finish_reason) ←
    chat_completion system_prompt user_prompt model (config_temperature s);
  mret response.

Definition _prepare_prediction (env : Env) (model : string) : M unit :=
  o ← get_self; h ← get_history;
  diff ← lift (get_pr_diff env (git_provider o) (token_handler o) model
                 true false h);
  modify_self (set_patches_diff (VStr diff));;
  if truthy (VStr diff)
  then log "debug" "PR diff";;
       response ← _get_prediction env model;
       modify_self (set_prediction (VStr response))
  else log "warning" "Empty diff for PR";;
       modify_self (set_prediction VNone).

(** [hasattr(get_settings(), 'pr_deployment_impact') and hasattr(...,
    'persistent_comment') and ....persistent_comment]. *)
Definition persistent_comment_enabled (s : Settings) : bool :=
  match pr_deployment_impact s with
  | Some sec => from_option id false (persistent_comment sec)
  | None => false
  end.

Definition final_update_message_of (s : Settings) : string :=
  match pr_deployment_impact s with
  | Some sec => from_option id "" (final_update_message_setting sec)
  | None => ""
  end.

(** The body of the [try] block of [run]. *)
Definition run_body (env : Env) : M pyval :=
  o ← get_self;
  files ← ask (get_files (git_provider o));
  match files with
  | [] =>
      log "info" "PR has no files, skipping deployment impact analysis";;
      mret VNone
  | _ :: _ =>
      log "info" "Analyzing deployment impact for PR ...";;
      s ← get_settings;
      (if config_publish_output s
       then o ← get_self; publish_comment (progress o) true
       else mret tt);;
      retry_with_fallback_models env (_prepare_prediction env) REGULAR;;
      o ← get_self;
      if negb (truthy (prediction o))
      then remove_initial_comment;;
           mret VNone
      else
        deployment_impact_analysis ← _prepare_deployment_impact_analysis;
        log "debug" "Deployment impact analysis";;
        s ← get_settings;
        if config_publish_output s
        then
          (if persistent_comment_enabled s
           then publish_persistent_comment deployment_impact_analysis
                  persistent_header true (final_update_message_of s)
           else publish_comment deployment_impact_analysis false);;
          remove_initial_comment;;
          mret VNone
        else
          log "info" "Deployment impact analysis output is not published";;
          modify_settings
            (set_data {[ "artifact" := deployment_impact_analysis ]});;
          o ← get_self;
          (if cli_mode o then print deployment_impact_analysis else mret tt);;
          mret VNone
  end.

(** The [except Exception as e] block of [run]. *)
Definition run_handler (e : exn) : M pyval :=
  log "error" ("Failed to analyze deployment impact: " +:+ exn_str e);;
  log "error" "traceback";;
  try_except
    (s ← get_settings;
     if config_publish_output s
     then publish_comment failure_notice false;;
          remove_initial_comment
     else mret tt)
    (mret tt);;
  mret VNone.

Definition run (env : Env) : M pyval :=
  try_except_Exception (run_body env) run_handler.

(** ** The constructor *)

Definition default_system_prompt : string :=
  "
        You are a deployment impact analyzer. Your task is to analyze code changes in a pull request and predict 
        how they might affect production systems. Focus on identifying dependencies, infrastructure requirements, 
        potential downtime needs, and services that might be affected.
        ".

Definition default_user_prompt : string :=
  "
        Please analyze the following pull request and predict its deployment impact:
        
        # Pull Request Information
        - Title: {{title}}
        - Branch: {{branch}}
        - Description: {{description}}
        - Main Language: {{language}}
        
        # Code Changes
        ```diff
        {{diff}}
        ```
        
        # Commit Messages
        {{commit_messages_str}}
        
        Please provide a comprehensive deployment impact analysis including:
        
        1. System Dependency Analysis:
           - Identify affected components and services
           - Map code changes to infrastructure resources
           - Highlight configuration dependencies
        
        2. Change Impact Assessment:
           - Identify modified services, endpoints, or data models
           - Detect schema changes requiring migrations
           - Flag changes to performance-critical paths
        
        3. Deployment Requirements:
           - Estimate resource requirement changes (memory, CPU, storage)
           - Identify potential downtime requirements
           - List services requiring coordinated deployments
        
        4. Deployment Risk Score:
           - Provide a risk score (Low, Medium, High) with justification
           - Highlight specific concerns requiring extra attention
        
        5. Recommended Deployment Strategy:
           - Suggest the safest approach to deploy these changes
           - Recommend monitoring and rollback strategies
        
        {{extra_instructions}}
        ".

(** [get_settings().get(key, False)] on an optional boolean key. *)
Definition get_or_False (v : option bool) : bool := from_option id false v.

(** The condition of line 56: description files present, the command is
    automatic, and AI metadata is enabled. *)
Definition ai_metadata_condition (files : list string) (s : Settings) : bool :=
  negb (bool_decide (files = []))
  && get_or_False (config_is_auto_command s)
  && get_or_False (config_enable_ai_metadata s).

Definition extra_instructions_of (s : Settings) : string :=
  match pr_deployment_impact s with
  | Some sec => from_option id "" (extra_instructions sec)
  | None => ""
  end.

(** The prompt passed to [TokenHandler]: the settings' override, else the
    local default. *)
Definition prompt_setting
    (field : PromptSection -> option string) (default : string) (s : Settings)
  : string :=
  match pr_deployment_impact_prompt s with
  | Some sec => from_option id default (field sec)
  | None => default
  end.

(** [PRDeploymentImpact(pr_url, cli_mode)] with the default AI handler
    class. *)
Definition __init__ (env : Env) (pr_url : pyval) (cli_mode : bool) : M unit :=
  gp ← lift (get_git_provider_with_context env pr_url);
  languages ← ask (get_languages gp);
  files ← ask (get_files gp);
  main_language ← lift (get_main_pr_language env languages files);
  handler ← lift (new_ai_handler env);
  '(pr_description, pr_description_files) ← ask (get_pr_description gp);
  s ← get_settings;
  (if ai_metadata_condition pr_description_files s
   then h ← get_history;
        perform add_ai_metadata_call (add_ai_metadata_to_diff_files_raises env h);;
        log "debug" "AI metadata added to this command"
   else modify_settings (set_enable_ai_metadata false);;
        log "debug" "AI metadata is disabled for this command");;
  branch ← ask (get_pr_branch gp);
  commit_messages ← ask (get_commit_messages gp);
  s ← get_settings;
  let vars : gmap string pyval :=
    <["title" := VStr (pr_title gp)]>
    (<["branch" := VStr branch]>
    (<["description" := pr_description]>
    (<["language" := VStr main_language]>
    (<["diff" := VStr ""]>
    (<["commit_messages_str" := VStr commit_messages]>
    (<["extra_instructions" := VStr (extra_instructions_of s)]>
    (<["is_ai_metadata" := VBool (get_or_False (config_enable_ai_metadata s))]>
    (<["date" := VStr (today env)]> ∅)))))))) in
  let system_prompt := prompt_setting prompt_system default_system_prompt s in
  let user_prompt := prompt_setting prompt_user default_user_prompt s in
  th ← lift (new_TokenHandler env vars system_prompt user_prompt);
  put_self (mkSelf gp main_language handler th VNone VNone pr_url cli_mode
              pr_description pr_description_files vars progress_text).

(** ** The web application *)

(** The JSON bodies [api_analyze] answers with. *)
Inductive Payload : Type :=
| error_payload (error : string)
| result_payload (result : string).

(** What [run_analysis] reads back from the settings: the artifact when the
    [data] attribute exists and has one, else a fixed text. *)
Definition stored_result (s : Settings) : string :=
  match data s with
  | Some d => from_option id "No analysis result available" (d !! "artifact")
  | None => "No analysis result available"
  end.

(** [run_analysis]: run, then read the artifact back from the settings. *)
Definition run_analysis (env : Env) : M string :=
  run env;;
  s ← get_settings;
  match data s with
  | Some d =>
      match d !! "artifact" with
      | Some artifact => mret artifact
      | None => mret "No analysis result available"
      end
  | None => mret "No analysis result available"
  end.

(** [api_analyze] on the JSON object [request_json]; the answer is the body
    and the HTTP status. *)
Definition api_analyze (env : Env) (request_json : gmap string pyval)
  : M (Payload * Z) :=
  let pr_url := from_option id VNone (request_json !! "pr_url") in
  if negb (truthy pr_url)
  then mret (error_payload "PR URL is required", 400%Z)
  else
    try_except_Exception
      (modify_settings (set_publish_output false);;
       __init__ env pr_url true;;
       result ← run_analysis env;
       mret (result_payload result, 200%Z))
      (fun e => mret (error_payload (exn_str e), 500%Z)).

(** ** The fallback controller *)

(** The failures of a model call that the controller handles. *)
Definition is_model_failure (e : exn) : bool :=
  match e with
  | TransientFailure _ | PermanentFailure _ => true
  | _ => false
  end.

(** Modelled from the spec: [retry_with_fallback_models] of
    [pr_agent.algo.pr_processing] is imported but not part of these files.
    Section 4.4 of the design document: start at the first model; for the
    current model attempt the call; on success stop; on a transient failure
    retry the same model up to a fixed attempt ceiling; on exhausting the
    retries, or on a permanent failure, advance to the next model; past the
    end of the list the step yields no prediction and no exception.  Any
    other exception is not a model failure and is passed on. *)
Fixpoint attempt_model (attempts : nat) (f : string -> M unit) (model : string)
  : M bool :=
  match attempts with
  | O => mret false
  | S k =>
      fun w =>
        match f model w with
        | (Ret _, w') => (Ret true, w')
        | (Raise (TransientFailure _), w') => attempt_model k f model w'
        | (Raise (PermanentFailure _), w') => (Ret false, w')
        | (Raise e, w') => (Raise e, w')
        end
  end.

(** Modelled from the spec: the walk of section 4.4 over the candidate
    models, in their priority order; the end of the list is the exhausted
    state, which returns without a prediction and without an exception. *)
Fixpoint try_models (ceiling : nat) (f : string -> M unit) (models : list string)
  : M unit :=
  match models with
  | [] => mret tt
  | model :: rest =>
      succeeded ← attempt_model ceiling f model;
      if succeeded : bool then mret tt else try_models ceiling f rest
  end.

(** Modelled from the spec: [retry_with_fallback_models] for a fallback
    chain [models] and an attempt ceiling [ceiling]. *)
Definition spec_retry_with_fallback_models
    (models : list string) (ceiling : nat)
    (f : string -> M unit) (model_type : ModelType) : M unit :=
  try_models ceiling f models.

(** ** Steps of [run] on their own *)

(** The step of [run] that posts the provisional marker (lines 158-159). *)
Definition post_progress : M unit :=
  s ← get_settings;
  if config_publish_output s
  then o ← get_self; publish_comment (progress o) true
  else mret tt.

(** The publish action of lines 173-182 on a report: the persistent comment
    when the switch is on, else a new comment. *)
Definition report_call (s : Settings) (report : string) : Call :=
  if persistent_comment_enabled s
  then publish_persistent_comment_call report persistent_header true
         (final_update_message_of s)
  else publish_comment_call report false.

(** What the provider answers to that action after the history [h]. *)
Definition report_call_raises
    (gp : GitProvider) (h : history) (s : Settings) (report : string)
  : option exn :=
  if persistent_comment_enabled s
  then publish_persistent_comment_raises gp h report persistent_header true
         (final_update_message_of s)
  else publish_comment_raises gp h report false.

(** A call that publishes the text [report] as a lasting comment. *)
Definition publishes_report (report : string) (c : Call) : bool :=
  match c with
  | publish_comment_call text false => String.eqb text report
  | publish_persistent_comment_call text _ _ _ => String.eqb text report
  | _ => false
  end.

(** Lines 163-191 of [run] on their own: what [run] does once the prediction
    step has returned. *)
Definition run_conclude : M pyval :=
  o ← get_self;
  if negb (truthy (prediction o))
  then remove_initial_comment;;
       mret VNone
  else
    deployment_impact_analysis ← _prepare_deployment_impact_analysis;
    log "debug" "Deployment impact analysis";;
    s ← get_settings;
    if config_publish_output s
    then
      (if persistent_comment_enabled s
       then publish_persistent_comment deployment_impact_analysis
              persistent_header true (final_update_message_of s)
       else publish_comment deployment_impact_analysis false);;
      remove_initial_comment;;
      mret VNone
    else
      log "info" "Deployment impact analysis output is not published";;
      modify_settings
        (set_data {[ "artifact" := deployment_impact_analysis ]});;
      o ← get_self;
      (if cli_mode o then print deployment_impact_analysis else mret tt);;
      mret VNone.

(** ** The provisional marker *)

(** Whether the temporary "in progress" comment is on the pull request after
    a history: an accepted temporary comment posts it, an accepted
    [remove_initial_comment] removes it. *)
Definition marker_step (visible : bool) (e : Event) : bool :=
  match ev_call e, ev_raised e with
  | publish_comment_call _ true, None => true
  | remove_initial_comment_call, None => false
  | _, _ => visible
  end.

Definition marker_visible (h : history) : bool :=
  fold_left marker_step h false.

(** The calls of a history that satisfy [p], raised or not. *)
Definition count_calls (p : Call -> bool) (h : history) : nat :=
  length (List.filter (fun e => p (ev_call e)) h).

Definition is_marker_post (c : Call) : bool :=
  match c with publish_comment_call _ true => true | _ => false end.

Definition is_marker_removal (c : Call) : bool :=
  match c with remove_initial_comment_call => true | _ => false end.

Definition is_model_call (c : Call) : bool :=
  match c with chat_completion_call _ _ _ _ => true | _ => false end.

(** A call that puts lasting text on the pull request. *)
Definition is_publication (c : Call) : bool :=
  match c with
  | publish_comment_call _ false => true
  | publish_persistent_comment_call _ _ _ _ => true
  | _ => false
  end.

(** ** Concrete environments

    A pull request titled "Add cache layer" with one changed file, a diff
    under budget and a single model; the knobs are the settings, what the model
    answers, and whether the provider refuses lasting comments. *)
Module Fixture.

Definition provider (files : list string) (refuse_comments : option exn)
  : GitProvider :=
  mkGitProvider
    "Add cache layer"
    (fun _ => Ret [("Python", 100%Z)])
    (fun _ => Ret files)
    (fun _ => Ret (VStr "Adds a cache in front of the store", []))
    (fun _ => Ret "feature/cache")
    (fun _ => Ret "1. add cache layer")
    (fun _ _ is_temporary => if is_temporary then None else refuse_comments)
    (fun _ _ _ _ _ => refuse_comments)
    (fun _ => None).

Definition handler (answer : outcome (string * string)) : AiHandler :=
  mkAiHandler (fun _ _ _ _ _ => answer).

(** The parser on the few sources the fixtures use. *)
Definition parse (source : string) : outcome Template :=
  if String.eqb source "Title: {{title}}"
  then Ret [Data "Title: "; Output "title"]
  else if String.eqb source "Diff: {{diff}}"
  then Ret [Data "Diff: "; Output "diff"]
  else if String.eqb source "Owner: {{owner}}"
  then Ret [Data "Owner: "; Output "owner"]
  else Ret [Data source].

Definition env (files : list string) (refuse_comments : option exn)
    (answer : outcome (string * string)) (diff : string) : Env :=
  mkEnv
    (fun _ => Ret (provider files refuse_comments))
    (fun _ _ => Ret "Python")
    (Ret (handler answer))
    (fun _ => None)
    (fun _ _ _ => Ret (mkTokenHandler 0))
    "2024-01-01"
    (fun _ _ _ _ _ _ => Ret diff)
    parse
    (spec_retry_with_fallback_models ["gpt-4o"] 2).

Definition prompts (user : string) : option PromptSection :=
  Some (mkPromptSection (Some "You analyze deployments.") (Some user)).

Definition the_settings (publish : bool) (persistent : option bool)
    (prompt : option PromptSection) : Settings :=
  mkSettings publish (Float 0) None None
    (Some (mkImpactSection None persistent None)) prompt None.

(** A world before any analyzer was constructed. *)
Definition blank : Self :=
  mkSelf (provider [] None) "" (handler (Raise (OtherException "")))
    (mkTokenHandler 0) VNone VNone VNone false VNone [] ∅ "".

Definition world (s : Settings) : World := mkWorld s blank [].

Definition url : pyval := VStr "https://example.org/pr/1".

(** The world after [PRDeploymentImpact(url)] was constructed in it. *)
Definition constructed (e : Env) (s : Settings) : World :=
  snd (__init__ e url false (world s)).

Definition risk_low : outcome (string * string) := Ret ("Risk: Low", "stop").

(** The model answers and the provider accepts everything. *)
Definition env_ok : Env := env ["cache.py"] None risk_low "+ cache".

(** The model is rate limited: a transient failure at every attempt. *)
Definition env_down : Env :=
  env ["cache.py"] None (Raise (TransientFailure "rate limited")) "+ cache".

(** The model call fails with an error that is not a model failure. *)
Definition env_failing : Env :=
  env ["cache.py"] None (Raise (OtherException "model down")) "+ cache".

(** The provider accepts the temporary comment and refuses lasting ones. *)
Definition env_refusing : Env :=
  env ["cache.py"] (Some (OtherException "403 Forbidden")) risk_low "+ cache".

Definition title_prompts : option PromptSection := prompts "Title: {{title}}".
Definition owner_prompts : option PromptSection := prompts "Owner: {{owner}}".

(** The worlds of a run after the marker step and after the prediction
    step. *)
Definition after_marker (w : World) : World := snd (post_progress w).

Definition after_prediction (e : Env) (w : World) : World :=
  snd (retry_with_fallback_models e (_prepare_prediction e) REGULAR
         (after_marker w)).

(** A provider that accepts every comment and answers [removal] to the
    removal of the provisional comment. *)
Definition provider_removing (files : list string) (removal : option exn)
  : GitProvider :=
  mkGitProvider
    "Add cache layer"
    (fun _ => Ret [("Python", 100%Z)])
    (fun _ => Ret files)
    (fun _ => Ret (VStr "Adds a cache in front of the store", []))
    (fun _ => Ret "feature/cache")
    (fun _ => Ret "1. add cache layer")
    (fun _ _ _ => None)
    (fun _ _ _ _ _ => None)
    (fun _ => removal).

(** The model answers, comments are accepted, the removal fails. *)
Definition env_stuck_marker : Env :=
  mkEnv
    (fun _ => Ret (provider_removing ["cache.py"]
                     (Some (OtherException "404 Not Found"))))
    (fun _ _ => Ret "Python")
    (Ret (handler risk_low))
    (fun _ => None)
    (fun _ _ _ => Ret (mkTokenHandler 0))
    "2024-01-01"
    (fun _ _ _ _ _ _ => Ret "+ cache")
    parse
    (spec_retry_with_fallback_models ["gpt-4o"] 2).

(** Overrides with a system template and no user template. *)
Definition system_only_prompts : option PromptSection :=
  Some (mkPromptSection (Some "You analyze deployments.") None).

Definition published_world : World :=
  constructed env_ok (the_settings true None title_prompts).

Definition unpublished_world : World :=
  constructed env_ok (the_settings false None title_prompts).

(** The JSON body of a request for the pull request. *)
Definition request : gmap string pyval := {[ "pr_url" := url ]}.

(** The world after a first request to the endpoint has been answered. *)
Definition after_first_request : World :=
  snd (api_analyze env_ok request (world (the_settings true None title_prompts))).

End Fixture.

(** ** Frames

    What a computation may change, as a relation between the world before
    and the world after, whatever it returns or raises. *)

Definition keeps {A} (R : World -> World -> Prop) (m : M A) : Prop :=
  forall w r w', m w = (r, w') -> R w w'.

(** A computation that only reads: whatever it returns or raises, the world
    is as before. *)
Definition reads_only {A} (m : M A) : Prop :=
  forall w r w', m w = (r, w') -> w' = w.

(** The analyzer object without the three attributes the prediction step
    assigns: [patches_diff], [prediction], and the entry [diff] of [vars]. *)
Definition erase_step (o : Self) : Self :=
  set_patches_diff VNone
    (set_prediction VNone (set_vars (delete "diff" (vars o)) o)).

(** The frame of the prediction step: the settings are as before, the
    analyzer object is as before up to the attributes of [erase_step], and
    the history has grown by completion calls only. *)
Definition step_frame (w w' : World) : Prop :=
  settings w' = settings w
  /\ erase_step (this w') = erase_step (this w)
  /\ exists calls,
       trace w' = trace w ++ calls
       /\ Forall (fun e => is_model_call (ev_call e) = true) calls.

(** A fallback controller that acts on the world only through the callback
    it is given: every relation on worlds that is reflexive, transitive and
    kept by the callback is kept by the controller. *)
Definition acts_through_callback (env : Env) : Prop :=
  forall R : World -> World -> Prop,
    (forall w, R w w) ->
    (forall a b c, R a b -> R b c -> R a c) ->
    forall (f : string -> M unit) (model_type : ModelType),
      (forall model, keeps R (f model)) ->
      keeps R (retry_with_fallback_models env f model_type).

(** An accepted removal of the provisional comment. *)
Definition is_accepted_removal (e : Event) : bool :=
  match ev_call e, ev_raised e with
  | remove_initial_comment_call, None => true
  | _, _ => false
  end.

(** No removal of the provisional comment is accepted in [h]. *)
Definition no_accepted_removal (h : history) : bool :=
  forallb (fun e => negb (is_accepted_removal e)) h.

(** An accepted removal, if there is one, is the last call of [h]. *)
Definition removal_only_last (h : history) : bool :=
  no_accepted_removal (removelast h).

(** * Properties *)

(** ** Unfolding the monad *)

Lemma bind_unfold {A B} (m : M A) (f : A -> M B) (w : World) :
  (m ≫= f) w =
  match m w with
  | (Ret a, w') => f a w'
  | (Raise e, w') => (Raise e, w')
  end.
Proof. reflexivity. Qed.

Lemma bind_Ret {A B} (m : M A) (f : A -> M B) (w w' : World) (a : A) :
  m w = (Ret a, w') -> (m ≫= f) w = f a w'.
Proof. intros H. rewrite bind_unfold, H. reflexivity. Qed.

Lemma bind_Raise {A B} (m : M A) (f : A -> M B) (w w' : World) (e : exn) :
  m w = (Raise e, w') -> (m ≫= f) w = (Raise e, w').
Proof. intros H. rewrite bind_unfold, H. reflexivity. Qed.

Ltac unfold_monad :=
  unfold modify_self, modify_settings, put_self, put_settings, get_self,
    get_settings, get_history, ask, lift, raise, log, perform,
    mbind, M_bind, mret, M_ret in *.

(** ** The report formatter *)

Lemma report_header_Risk_Low :
  report_header +:+ "Risk: Low" =
  "# Deployment Impact Analysis ðŸš€

Risk: Low".
Proof. reflexivity. Qed.

Lemma format_prediction (w : World) (p : string) :
  prediction (this w) = VStr p ->
  _prepare_deployment_impact_analysis w = (Ret (report_header +:+ p), w).
Proof.
  intros Hp. unfold _prepare_deployment_impact_analysis. unfold_monad.
  now rewrite Hp.
Qed.




(** ** Inverting a sequence that returned *)

Lemma bind_returns {A B} (m : M A) (f : A -> M B) (w w' : World) (b : B) :
  (m ≫= f) w = (Ret b, w') ->
  exists a w1, m w = (Ret a, w1) /\ f a w1 = (Ret b, w').
Proof.
  rewrite bind_unfold. destruct (m w) as [[a|e] w1]; [eauto|discriminate].
Qed.

Ltac bind_inv H :=
  let a := fresh "a" in
  let w1 := fresh "w" in
  let H1 := fresh H in
  apply bind_returns in H; destruct H as (a & w1 & H1 & H).

Lemma mret_inv {A} (a b : A) (w w' : World) :
  mret (M := M) a w = (Ret b, w') -> a = b /\ w = w'.
Proof. intros [= -> ->]. auto. Qed.

(** ** Name resolution *)

Lemma default_system_prompt_unbound :
  load_name _get_prediction_locals "default_system_prompt"
  = raise (NameError "default_system_prompt").
Proof. reflexivity. Qed.

Lemma default_user_prompt_unbound :
  load_name _get_prediction_locals "default_user_prompt"
  = raise (NameError "default_user_prompt").
Proof. reflexivity. Qed.

(** The names are local variables of the constructor and of no other
    scope. *)
Lemma default_prompts_are_locals_of_init :
  name_in "default_system_prompt" __init___locals = true
  /\ name_in "default_user_prompt" __init___locals = true
  /\ name_in "default_system_prompt" _get_prediction_locals = false
  /\ name_in "default_user_prompt" _get_prediction_locals = false.
Proof. repeat split; reflexivity. Qed.

(** C2: when the settings have no [pr_deployment_impact_prompt] section,
    [_get_prediction] raises [NameError] for [default_system_prompt], a local
    variable of the constructor that is not in scope here, and it does so
    before any model call: the history is unchanged.  Hence the prediction
    step [_prepare_prediction] fails in the same way on every non-empty
    diff. *)
Theorem default_templates_raise_NameError
    (env : Env) (model : string) (w : World) :
  pr_deployment_impact_prompt (settings w) = None ->
  (exists w',
     _get_prediction env model w =
       (Raise (NameError "default_system_prompt"), w')
     /\ trace w' = trace w)
  /\ (forall diff,
        get_pr_diff env (git_provider (this w)) (token_handler (this w)) model
          true false (trace w) = Ret diff ->
        truthy (VStr diff) = true ->
        exists w',
          _prepare_prediction env model w =
            (Raise (NameError "default_system_prompt"), w')
          /\ trace w' = trace w
          /\ prediction (this w') = prediction (this w)).
Proof.
  intros Hnone.
  assert (Hget : forall w0, pr_deployment_impact_prompt (settings w0) = None ->
            exists w', _get_prediction env model w0 =
                         (Raise (NameError "default_system_prompt"), w')
                       /\ trace w' = trace w0
                       /\ prediction (this w') = prediction (this w0)).
  { intros w0 H0. eexists. unfold _get_prediction, prompt_or_default.
    unfold_monad. cbn. rewrite H0. cbn. repeat split; reflexivity. }
  split.
  - destruct (Hget w Hnone) as (w' & H & Ht & _). eauto.
  - intros diff Hdiff Htruthy.
    unfold _prepare_prediction. unfold_monad. cbn in *.
    rewrite Hdiff. cbn. rewrite Htruthy. cbn.
    match goal with
    | |- context [_get_prediction env model ?w0] =>
        destruct (Hget w0 Hnone) as (w' & H & Ht & Hp); rewrite H
    end.
    exists w'. repeat split; assumption.
Qed.

(** ** What [run] lets through *)

Lemma run_handler_returns (e : exn) (w : World) :
  exists w', run_handler e w = (Ret VNone, w').
Proof.
  unfold run_handler, try_except, publish_comment, remove_initial_comment.
  unfold_monad. cbn.
  destruct (config_publish_output (settings w)); cbn; [|eauto].
  destruct (publish_comment_raises _ _ _ _); cbn; [eauto|].
  destruct (remove_initial_comment_raises _ _); cbn; eauto.
Qed.

Ltac returns_None H :=
  repeat first
    [ apply mret_inv in H as [<- _]; reflexivity
    | bind_inv H
    | match type of H with
      | (if ?c then _ else _) _ = _ => destruct c
      | (match ?l with [] => _ | _ :: _ => _ end) _ = _ => destruct l
      end ].

Lemma run_body_returns_None (env : Env) (w w' : World) (v : pyval) :
  run_body env w = (Ret v, w') -> v = VNone.
Proof.
  unfold run_body. intros H. returns_None H.
Qed.

(** The two ways out of [run]. *)
Lemma run_cases (env : Env) (w : World) :
  (exists w', run env w = (Ret VNone, w'))
  \/ (exists e w', run env w = (Raise e, w') /\ is_Exception e = false).
Proof.
  unfold run, try_except_Exception.
  destruct (run_body env w) as [[v|e] w'] eqn:Hbody.
  - left. apply run_body_returns_None in Hbody as ->. eauto.
  - destruct (is_Exception e) eqn:He.
    + left. apply run_handler_returns.
    + right. eauto.
Qed.

(** C4 (as amended): no failure that is an [Exception] leaves [run]: the
    [except Exception] handler absorbs it, a template rendering error
    included, and [run] returns [None].  What leaves [run] is only an
    exception outside [Exception] (a cancellation, a keyboard interrupt)
    that the body of the [try] block raised. *)
Theorem run_absorbs_every_Exception (env : Env) (w : World) :
  (exists w', run env w = (Ret VNone, w'))
  \/ (exists e w',
        run env w = (Raise e, w')
        /\ is_Exception e = false
        /\ run_body env w = (Raise e, w')).
Proof.
  unfold run, try_except_Exception.
  destruct (run_body env w) as [[v|e] w'] eqn:Hbody.
  - left. exists w'. f_equal. f_equal.
    exact (run_body_returns_None env w w' v Hbody).
  - destruct (is_Exception e) eqn:He.
    + left. destruct (run_handler_returns e w') as [w'' Hh]. eauto.
    + right. exists e, w'. auto.
Qed.

(** C7: when the pull request has no changed file, [run] returns [None]
    without raising and leaves the world as it was: no provisional marker
    was posted, the model was not called, nothing was published. *)
Theorem no_files_no_effect (env : Env) (w : World) :
  get_files (git_provider (this w)) (trace w) = Ret [] ->
  run env w = (Ret VNone, w).
Proof.
  intros Hfiles.
  unfold run, try_except_Exception, run_body. unfold_monad. cbn.
  rewrite Hfiles. reflexivity.
Qed.

(** ** The paths of [run] after the first steps *)

Lemma marker_visible_snoc (h : history) (e : Event) :
  marker_visible (h ++ [e]) = marker_step (marker_visible h) e.
Proof. unfold marker_visible. now rewrite fold_left_app. Qed.

(** [run_body] once the file list is known to be non-empty and the marker
    step and the prediction step have returned. *)
Lemma run_body_after_prediction
    (env : Env) (w w1 w2 : World) (f : string) (fs : list string) :
  get_files (git_provider (this w)) (trace w) = Ret (f :: fs) ->
  post_progress w = (Ret tt, w1) ->
  retry_with_fallback_models env (_prepare_prediction env) REGULAR w1
    = (Ret tt, w2) ->
  run_body env w =
  (if negb (truthy (prediction (this w2)))
   then remove_initial_comment;; mret VNone
   else
     deployment_impact_analysis ← _prepare_deployment_impact_analysis;
     if config_publish_output (settings w2)
     then
       (if persistent_comment_enabled (settings w2)
        then publish_persistent_comment deployment_impact_analysis
               persistent_header true (final_update_message_of (settings w2))
        else publish_comment deployment_impact_analysis false);;
       remove_initial_comment;;
       mret VNone
     else
       modify_settings
         (set_data {[ "artifact" := deployment_impact_analysis ]});;
       (if cli_mode (this w2) then print deployment_impact_analysis
        else mret tt);;
       mret VNone) w2.
Proof.
  intros Hfiles Hpost Hretry.
  unfold run_body.
  rewrite (bind_Ret get_self _ w w (this w)) by reflexivity.
  rewrite (bind_Ret (ask _) _ w w (f :: fs))
    by (unfold ask; now rewrite Hfiles).
  rewrite (bind_Ret (log _ _) _ w w tt) by reflexivity.
  rewrite (bind_Ret get_settings _ w w (settings w)) by reflexivity.
  rewrite (bind_Ret _ _ w w1 tt) by exact Hpost.
  rewrite (bind_Ret _ _ w1 w2 tt) by exact Hretry.
  rewrite (bind_Ret get_self _ w2 w2 (this w2)) by reflexivity.
  destruct (negb (truthy (prediction (this w2)))); [reflexivity|].
  unfold _prepare_deployment_impact_analysis.
  rewrite !bind_unfold. cbn.
  destruct (prediction (this w2)); cbn; try reflexivity.
  unfold_monad. cbn.
  destruct (config_publish_output (settings w2)); reflexivity.
Qed.

(** The controller of section 4.4 on a callback that fails with a model
    failure at every attempt and leaves the prediction alone. *)
Section Exhaustion.
Variable f : string -> M unit.
Hypothesis f_fails :
  forall m w, exists e w',
    f m w = (Raise e, w') /\ is_model_failure e = true
    /\ prediction (this w') = prediction (this w).

Lemma attempt_model_gives_up (attempts : nat) (m : string) (w : World) :
  exists w',
    attempt_model attempts f m w = (Ret false, w')
    /\ prediction (this w') = prediction (this w).
Proof.
  revert w. induction attempts as [|k IH]; intros w; [now exists w|].
  destruct (f_fails m w) as (e & w1 & Hf & He & Hp).
  cbn [attempt_model]. rewrite Hf.
  destruct e; try discriminate.
  - destruct (IH w1) as (w' & Hk & Hp'). exists w'. split; [exact Hk|congruence].
  - exists w1. auto.
Qed.

Lemma try_models_exhausted (ceiling : nat) (models : list string) (w : World) :
  exists w',
    try_models ceiling f models w = (Ret tt, w')
    /\ prediction (this w') = prediction (this w).
Proof.
  revert w. induction models as [|m rest IH]; intros w; [now exists w|].
  destruct (attempt_model_gives_up ceiling m w) as (w1 & Ha & Hp).
  cbn [try_models]. rewrite (bind_Ret _ _ w w1 false Ha).
  destruct (IH w1) as (w' & Hr & Hp'). exists w'. split; [exact Hr|congruence].
Qed.
End Exhaustion.

(** [_prepare_prediction] on an empty budgeted diff: no prediction, no call. *)
Lemma empty_diff_no_prediction (env : Env) (model : string) (w : World) :
  get_pr_diff env (git_provider (this w)) (token_handler (this w)) model
    true false (trace w) = Ret "" ->
  _prepare_prediction env model w =
    (Ret tt,
     mkWorld (settings w)
       (set_prediction VNone (set_patches_diff (VStr "") (this w))) (trace w)).
Proof.
  intros Hdiff. unfold _prepare_prediction. unfold_monad. cbn.
  now rewrite Hdiff.
Qed.


(** ** Publishing the report *)

Lemma notice_is_not_a_report (p : string) :
  String.eqb failure_notice (report_header +:+ p) = false.
Proof. reflexivity. Qed.

Lemma count_calls_cons (q : Call -> bool) (e : Event) (h : history) :
  count_calls q (e :: h) = ((if q (ev_call e) then 1 else 0) + count_calls q h)%nat.
Proof. unfold count_calls. cbn. now destruct (q (ev_call e)). Qed.

(** The handler of [run] returns [None]; what it adds to the history is at
    most the failure notice and a removal, never a report. *)
Lemma run_handler_trace (e : exn) (w : World) (p : string) :
  exists rest,
    trace (snd (run_handler e w)) = trace w ++ rest
    /\ count_calls (publishes_report (report_header +:+ p)) rest = 0%nat
    /\ fst (run_handler e w) = Ret VNone.
Proof.
  unfold run_handler, try_except, publish_comment, remove_initial_comment.
  unfold_monad. cbn.
  destruct (config_publish_output (settings w)); cbn.
  2: { exists []. now rewrite app_nil_r. }
  destruct (publish_comment_raises _ _ _ _); cbn.
  { eexists. split; [reflexivity|]. split; reflexivity. }
  destruct (remove_initial_comment_raises _ _); cbn.
  all: rewrite <- app_assoc; eexists; split; [reflexivity|]; split; reflexivity.
Qed.

(** The failure path with publishing enabled.  When the provider accepts the
    failure notice the handler goes on to the removal; when it refuses the
    notice, the bare [except] ends the block and the removal is not tried. *)
Lemma run_handler_notice_accepted (e : exn) (w : World) :
  config_publish_output (settings w) = true ->
  publish_comment_raises (git_provider (this w)) (trace w) failure_notice false
    = None ->
  let noticed := trace w ++ [mkEvent (publish_comment_call failure_notice false) None] in
  run_handler e w =
    (Ret VNone,
     mkWorld (settings w) (this w)
       (noticed ++
        [mkEvent remove_initial_comment_call
           (remove_initial_comment_raises (git_provider (this w)) noticed)])).
Proof.
  intros Hpublish Hnotice noticed.
  unfold run_handler, try_except, publish_comment, remove_initial_comment.
  unfold_monad. cbn [settings this trace]. rewrite Hpublish, Hnotice.
  cbn [settings this trace]. fold noticed.
  destruct (remove_initial_comment_raises _ _); reflexivity.
Qed.

Lemma run_handler_notice_refused (e e' : exn) (w : World) :
  config_publish_output (settings w) = true ->
  publish_comment_raises (git_provider (this w)) (trace w) failure_notice false
    = Some e' ->
  run_handler e w =
    (Ret VNone,
     mkWorld (settings w) (this w)
       (trace w ++ [mkEvent (publish_comment_call failure_notice false) (Some e')])).
Proof.
  intros Hpublish Hnotice.
  unfold run_handler, try_except, publish_comment, remove_initial_comment.
  unfold_monad. cbn [settings this trace]. rewrite Hpublish, Hnotice.
  reflexivity.
Qed.

(** [run] on the predicted path with publishing enabled: the publish action,
    then the removal, and the handler as soon as one of them raises an
    [Exception]. *)
Lemma run_predicted_publish
    (env : Env) (w w1 w2 : World) (f : string) (fs : list string) (p : string) :
  get_files (git_provider (this w)) (trace w) = Ret (f :: fs) ->
  post_progress w = (Ret tt, w1) ->
  retry_with_fallback_models env (_prepare_prediction env) REGULAR w1
    = (Ret tt, w2) ->
  prediction (this w2) = VStr p ->
  truthy (VStr p) = true ->
  config_publish_output (settings w2) = true ->
  let report := report_header +:+ p in
  let after h := mkWorld (settings w2) (this w2) (trace w2 ++ h) in
  let published raised := mkEvent (report_call (settings w2) report) raised in
  let removed raised := mkEvent remove_initial_comment_call raised in
  let guard e w' :=
    if is_Exception e then run_handler e w' else (Raise e, w') in
  run env w =
    match report_call_raises (git_provider (this w2)) (trace w2) (settings w2)
            report with
    | Some e => guard e (after [published (Some e)])
    | None =>
        match remove_initial_comment_raises (git_provider (this w2))
                (trace w2 ++ [published None]) with
        | Some e => guard e (after [published None; removed (Some e)])
        | None => (Ret VNone, after [published None; removed None])
        end
    end.
Proof.
  intros Hfiles Hpost Hretry Hpred Htruthy Hpublish report after published
    removed guard.
  unfold run, try_except_Exception.
  rewrite (run_body_after_prediction env w w1 w2 f fs Hfiles Hpost Hretry).
  rewrite Hpred, Htruthy. cbn [negb].
  rewrite (bind_Ret _ _ w2 w2 report (format_prediction w2 p Hpred)).
  rewrite Hpublish.
  subst after published removed guard.
  unfold report_call_raises, report_call.
  unfold publish_persistent_comment, publish_comment, remove_initial_comment.
  unfold_monad. cbn [settings this trace fst snd].
  destruct (persistent_comment_enabled (settings w2)).
  all: repeat (cbn [settings this trace fst snd];
               match goal with
               | |- context [match ?x with Some _ => _ | None => _ end] =>
                   destruct x
               end).
  all: cbn [settings this trace fst snd]; rewrite <- ?app_assoc; reflexivity.
Qed.


(** ** Rendering with [StrictUndefined] *)

Section Rendering.
Variable ctx : gmap string pyval.

Lemma render_complete (u : undefined_policy) (t : Template) :
  (forall x, In x (referenced t) -> is_Some (ctx !! x)) ->
  exists pieces,
    render u t ctx = Ret (join pieces) /\ Forall2 (resolved ctx) t pieces.
Proof.
  induction t as [|n t IH]; intros Hall.
  - exists []. split; [reflexivity|constructor].
  - destruct IH as (pieces & Hr & Hf).
    { intros x Hx. apply Hall. unfold referenced in *. cbn.
      apply in_or_app. now right. }
    destruct n as [text|x]; cbn [render].
    + rewrite Hr. exists (text :: pieces). split; [reflexivity|].
      constructor; [constructor|assumption].
    + destruct (Hall x) as [v Hv]; [now left|].
      rewrite Hv, Hr. exists (py_str v :: pieces).
      split; [destruct u; reflexivity|].
      constructor; [now constructor|assumption].
Qed.

Lemma render_strict_missing (t : Template) (x : string) :
  In x (referenced t) -> ctx !! x = None ->
  exists y,
    render StrictUndefined t ctx = Raise (UndefinedError y)
    /\ In y (referenced t) /\ ctx !! y = None.
Proof.
  induction t as [|n t IH]; intros Hin Hx; [destruct Hin|].
  destruct n as [text|z]; cbn [render].
  - destruct (IH Hin Hx) as (y & Hr & Hy & Hn).
    rewrite Hr. exists y. auto.
  - destruct (ctx !! z) as [v|] eqn:Hz.
    + destruct Hin as [->|Hin]; [congruence|].
      destruct (IH Hin Hx) as (y & Hr & Hy & Hn).
      rewrite Hr. exists y. split; [reflexivity|]. split; [now right|assumption].
    + exists z. split; [reflexivity|]. split; [now left|assumption].
Qed.

(** Either some referenced variable is missing or all are present. *)
Lemma classic_missing (t : Template) :
  (exists y, In y (referenced t) /\ ctx !! y = None)
  \/ (forall x, In x (referenced t) -> is_Some (ctx !! x)).
Proof.
  induction (referenced t) as [|a l [(y & Hy & Hn)|Hall]].
  - right. intros x [].
  - left. exists y. split; [now right|assumption].
  - destruct (ctx !! a) as [v|] eqn:Ha.
    + right. intros x [<-|Hx]; [eauto|auto].
    + left. exists a. split; [now left|assumption].
Qed.

(** The default policy, by contrast, never fails. *)
Lemma render_lenient_returns (t : Template) :
  exists s, render Undefined t ctx = Ret s.
Proof.
  induction t as [|[text|x] t [s Hs]]; cbn [render]; [eauto| |].
  - rewrite Hs. eauto.
  - rewrite Hs. destruct (ctx !! x); eauto.
Qed.
End Rendering.

Lemma referenced_app (t1 t2 : Template) :
  referenced (t1 ++ t2) = referenced t1 ++ referenced t2.
Proof. unfold referenced. now rewrite flat_map_app. Qed.

(** [_get_prediction] when the settings supply both templates and the parser
    accepts them: the context is [self.vars] with the diff filled in, both
    templates are rendered against it under [StrictUndefined], a rendering
    error is raised again, and only then is the model called. *)
Lemma _get_prediction_renders
    (env : Env) (model : string) (w : World) (sec : PromptSection)
    (sys usr : string) (ts tu : Template) :
  pr_deployment_impact_prompt (settings w) = Some sec ->
  prompt_system sec = Some sys ->
  prompt_user sec = Some usr ->
  jinja_from_string env sys = Ret ts ->
  jinja_from_string env usr = Ret tu ->
  let ctx := <["diff" := patches_diff (this w)]> (vars (this w)) in
  let w1 := mkWorld (settings w) (set_vars ctx (this w)) (trace w) in
  _get_prediction env model w =
    match render StrictUndefined ts ctx with
    | Raise e => (Raise e, w1)
    | Ret s =>
        match render StrictUndefined tu ctx with
        | Raise e => (Raise e, w1)
        | Ret u =>
            (r ← chat_completion s u model (config_temperature (settings w));
             mret (fst r)) w1
        end
    end.
Proof.
  intros Hsec Hsys Husr Hts Htu ctx w1.
  unfold _get_prediction, prompt_or_default, from_string, Template_render,
    try_except_Exception.
  unfold_monad. cbn [settings this trace fst snd].
  rewrite Hsec, Hsys. cbn. rewrite Hsec, Husr. cbn. rewrite Hts. cbn.
  rewrite Htu. cbn.
  fold ctx. fold w1.
  destruct (render StrictUndefined ts ctx) as [s|e].
  - destruct (render StrictUndefined tu ctx) as [u|e].
    + unfold chat_completion. unfold_monad. cbn.
      destruct (chat_completion_answer _ _ _ _ _ _) as [[r fr]|e]; reflexivity.
    + destruct (is_Exception e); reflexivity.
  - destruct (is_Exception e); reflexivity.
Qed.


(** ** The result smuggled through the settings *)

(** [run] on the predicted path with publishing disabled: the report is
    written to [get_settings().data], printed in CLI mode, and nothing is
    sent to the provider. *)
Lemma run_predicted_unpublished
    (env : Env) (w w1 w2 : World) (f : string) (fs : list string) (p : string) :
  get_files (git_provider (this w)) (trace w) = Ret (f :: fs) ->
  post_progress w = (Ret tt, w1) ->
  retry_with_fallback_models env (_prepare_prediction env) REGULAR w1
    = (Ret tt, w2) ->
  prediction (this w2) = VStr p ->
  truthy (VStr p) = true ->
  config_publish_output (settings w2) = false ->
  let report := report_header +:+ p in
  run env w =
    (Ret VNone,
     mkWorld (set_data {[ "artifact" := report ]} (settings w2)) (this w2)
       (trace w2 ++
        if cli_mode (this w2) then [mkEvent (print_call report) None] else [])).
Proof.
  intros Hfiles Hpost Hretry Hpred Htruthy Hpublish report.
  unfold run, try_except_Exception.
  rewrite (run_body_after_prediction env w w1 w2 f fs Hfiles Hpost Hretry).
  rewrite Hpred, Htruthy. cbn [negb].
  rewrite (bind_Ret _ _ w2 w2 report (format_prediction w2 p Hpred)).
  rewrite Hpublish. unfold print. unfold_monad. cbn [settings this trace].
  destruct (cli_mode (this w2)); cbn; [reflexivity|].
  now rewrite app_nil_r.
Qed.

Lemma run_analysis_reads_settings (env : Env) (w w' : World) :
  run env w = (Ret VNone, w') ->
  run_analysis env w = (Ret (stored_result (settings w')), w').
Proof.
  intros Hrun. unfold run_analysis.
  rewrite (bind_Ret _ _ w w' VNone Hrun).
  unfold stored_result. unfold_monad.
  destruct (data (settings w')) as [d|]; [|reflexivity].
  destruct (d !! "artifact"); reflexivity.
Qed.

Lemma stored_result_set_data (report : string) (s : Settings) :
  stored_result (set_data {[ "artifact" := report ]} s) = report.
Proof.
  unfold stored_result, set_data. cbn. now rewrite lookup_singleton_eq.
Qed.

(** What the constructor leaves in [config.enable_ai_metadata]. *)
Lemma init_disables_ai_metadata
    (env : Env) (url : pyval) (cli : bool) (w w' : World) (gp : GitProvider)
    (description : pyval) (files : list string) :
  get_git_provider_with_context env url = Ret gp ->
  get_pr_description gp (trace w) = Ret (description, files) ->
  ai_metadata_condition files (settings w) = false ->
  __init__ env url cli w = (Ret tt, w') ->
  config_enable_ai_metadata (settings w') = Some false.
Proof.
  intros Hgp Hdesc Hcond. unfold __init__. unfold_monad.
  cbn [settings this trace]. rewrite Hgp.
  destruct (get_languages gp (trace w)); [|discriminate].
  destruct (get_files gp (trace w)); [|discriminate].
  destruct (get_main_pr_language env _ _); [|discriminate].
  destruct (new_ai_handler env); [|discriminate].
  rewrite Hdesc, Hcond. cbn [settings this trace].
  destruct (get_pr_branch gp (trace w)); [|discriminate].
  destruct (get_commit_messages gp (trace w)); [|discriminate].
  destruct (new_TokenHandler env _ _ _); [|discriminate].
  intros [= <-]. reflexivity.
Qed.

(** C10: [run] returns [None] whenever it returns; on the predicted path with
    publishing disabled the report reaches the caller only through the
    shared settings: [run] stores it under [data] as the artifact, sends
    nothing to the provider, and [run_analysis] reads it back; and the
    constructor, when the AI-metadata conditions are not met, forces
    [config.enable_ai_metadata] to [False], so a configuration that had it
    on is changed by constructing an analyzer. *)
Theorem result_travels_through_shared_settings (env : Env) :
  (forall w v w', run env w = (Ret v, w') -> v = VNone)
  /\ (forall w w1 w2 f fs p,
        get_files (git_provider (this w)) (trace w) = Ret (f :: fs) ->
        post_progress w = (Ret tt, w1) ->
        retry_with_fallback_models env (_prepare_prediction env) REGULAR w1
          = (Ret tt, w2) ->
        prediction (this w2) = VStr p ->
        truthy (VStr p) = true ->
        config_publish_output (settings w2) = false ->
        exists w3,
          run env w = (Ret VNone, w3)
          /\ data (settings w3) = Some {[ "artifact" := report_header +:+ p ]}
          /\ count_calls is_publication (trace w3)
             = count_calls is_publication (trace w2)
          /\ run_analysis env w = (Ret (report_header +:+ p), w3))
  /\ (forall url cli w w' gp description files,
        get_git_provider_with_context env url = Ret gp ->
        get_pr_description gp (trace w) = Ret (description, files) ->
        ai_metadata_condition files (settings w) = false ->
        __init__ env url cli w = (Ret tt, w') ->
        config_enable_ai_metadata (settings w') = Some false
        /\ (config_enable_ai_metadata (settings w) = Some true ->
            settings w' <> settings w)).
Proof.
  split; [|split].
  - intros w v w' Hrun.
    destruct (run_cases env w) as [(w0 & H)|(e & w0 & H & _)]; congruence.
  - intros w w1 w2 f fs p Hfiles Hpost Hretry Hpred Htruthy Hpublish.
    pose proof (run_predicted_unpublished env w w1 w2 f fs p Hfiles Hpost
                  Hretry Hpred Htruthy Hpublish) as Hrun.
    cbv zeta in Hrun. eexists. split; [exact Hrun|].
    split; [reflexivity|]. split.
    + cbn [trace]. unfold count_calls.
      rewrite List.filter_app, length_app.
      destruct (cli_mode (this w2)); cbn; lia.
    + rewrite (run_analysis_reads_settings env w _ Hrun).
      cbn [settings]. now rewrite stored_result_set_data.
  - intros url cli w w' gp description files Hgp Hdesc Hcond Hinit.
    pose proof (init_disables_ai_metadata env url cli w w' gp description
                  files Hgp Hdesc Hcond Hinit) as Hoff.
    split; [exact Hoff|].
    intros Hon Heq. rewrite Heq in Hoff. congruence.
Qed.

(** ** The HTTP endpoint *)

(** The world in which [api_analyze] constructs the analyzer: publishing has
    been switched off in the shared settings. *)
Lemma api_analyze_unfold
    (env : Env) (request_json : gmap string pyval) (w : World) (url : pyval) :
  request_json !! "pr_url" = Some url ->
  truthy url = true ->
  let w0 := mkWorld (set_publish_output false (settings w)) (this w) (trace w) in
  api_analyze env request_json w =
    try_except_Exception
      (__init__ env url true;;
       result ← run_analysis env;
       mret (result_payload result, 200%Z))
      (fun e => mret (error_payload (exn_str e), 500%Z)) w0.
Proof.
  intros Hurl Htruthy w0. unfold api_analyze. rewrite Hurl. cbn [from_option id].
  rewrite Htruthy. cbn [negb]. unfold try_except_Exception.
  rewrite (bind_Ret (modify_settings _) _ w w0 tt) by reflexivity.
  reflexivity.
Qed.


(** * The properties on concrete pull requests *)

Import Fixture.

(** C3, where the code departs from it: publishing is enabled, the marker is
    posted, the model answers, and the provider refuses lasting comments.
    The report is refused, so is the failure notice, and the removal that
    follows the notice in the same [try] block is skipped although the
    provider would have accepted it: [run] returns [None] and the marker is
    still there, never having been removed. *)
Theorem marker_left_when_failure_notice_is_refused :
  exists w',
    run env_refusing (constructed env_refusing (the_settings true None title_prompts))
      = (Ret VNone, w')
    /\ count_calls is_marker_post (trace w') = 1%nat
    /\ count_calls is_marker_removal (trace w') = 0%nat
    /\ marker_visible (trace w') = true
    /\ remove_initial_comment_raises (git_provider (this w')) (trace w') = None.
Proof.
  eexists. split; [vm_compute; reflexivity|].
  repeat split; vm_compute; reflexivity.
Qed.

(** C4, the claim as stated fails: a template that refers to a missing
    variable makes the body of [run] raise [UndefinedError], and [run]
    returns [None] all the same. *)
Lemma rendering_error_does_not_leave_run :
  fst (_prepare_prediction env_ok "gpt-4o"
         (after_marker
            (constructed env_ok (the_settings true None owner_prompts))))
    = Raise (UndefinedError "owner")
  /\ fst (run_body env_ok
            (constructed env_ok (the_settings true None owner_prompts)))
     = Raise (UndefinedError "owner")
  /\ fst (run env_ok (constructed env_ok (the_settings true None owner_prompts)))
     = Ret VNone.
Proof. repeat split; vm_compute; reflexivity. Qed.


Lemma default_templates_raise_NameError_witness :
  exists w',
    _get_prediction env_ok "gpt-4o"
      (constructed env_ok (the_settings true None None))
    = (Raise (NameError "default_system_prompt"), w')
    /\ trace w' = trace (constructed env_ok (the_settings true None None)).
Proof.
  apply (default_templates_raise_NameError env_ok "gpt-4o"
           (constructed env_ok (the_settings true None None))).
  vm_compute; reflexivity.
Defined.

Lemma no_files_no_effect_witness :
  run env_ok (world (the_settings true None title_prompts))
  = (Ret VNone, world (the_settings true None title_prompts)).
Proof.
  apply (no_files_no_effect env_ok (world (the_settings true None title_prompts))).
  reflexivity.
Defined.





Lemma result_travels_through_shared_settings_witness :
  exists w3,
    run env_ok (constructed env_ok (the_settings false None title_prompts))
      = (Ret VNone, w3)
    /\ data (settings w3) = Some {[ "artifact" := report_header +:+ "Risk: Low" ]}
    /\ count_calls is_publication (trace w3)
       = count_calls is_publication
           (trace (after_prediction env_ok
                     (constructed env_ok (the_settings false None title_prompts))))
    /\ run_analysis env_ok
         (constructed env_ok (the_settings false None title_prompts))
       = (Ret (report_header +:+ "Risk: Low"), w3).
Proof.
  apply (proj1 (proj2 (result_travels_through_shared_settings env_ok))
           (constructed env_ok (the_settings false None title_prompts))
           (after_marker
              (constructed env_ok (the_settings false None title_prompts)))
           (after_prediction env_ok
              (constructed env_ok (the_settings false None title_prompts)))
           "cache.py" [] "Risk: Low").
  all: vm_compute; reflexivity.
Defined.

(** * Further properties of the analyzer *)

(** ** The prediction step and its frame *)

Lemma bind_cases {A B} (m : M A) (f : A -> M B) (w w' : World) (r : outcome B) :
  (m ≫= f) w = (r, w') ->
  (exists e, m w = (Raise e, w') /\ r = Raise e)
  \/ (exists a w1, m w = (Ret a, w1) /\ f a w1 = (r, w')).
Proof.
  rewrite bind_unfold. destruct (m w) as [[a|e] w1].
  - right. eauto.
  - intros [= <- <-]. left. eauto.
Qed.

Lemma reads_only_bind {A B} (m : M A) (f : A -> M B) :
  reads_only m -> (forall a, reads_only (f a)) -> reads_only (m ≫= f).
Proof.
  intros Hm Hf w r w' H.
  apply bind_cases in H as [(e & H & _)|(a & w1 & H1 & H2)].
  - exact (Hm _ _ _ H).
  - apply Hm in H1 as ->. exact (Hf a _ _ _ H2).
Qed.

Lemma reads_only_mret {A} (a : A) : reads_only (mret a).
Proof. intros w r w' [= _ <-]. reflexivity. Qed.

Lemma reads_only_raise {A} (e : exn) : reads_only (raise (A := A) e).
Proof. intros w r w' [= _ <-]. reflexivity. Qed.

Lemma reads_only_lift {A} (o : outcome A) : reads_only (lift o).
Proof. intros w r w' [= _ <-]. reflexivity. Qed.

Lemma reads_only_ask {A} (oracle : history -> outcome A) : reads_only (ask oracle).
Proof. intros w r w' [= _ <-]. reflexivity. Qed.

Lemma reads_only_log (level msg : string) : reads_only (log level msg).
Proof. apply reads_only_mret. Qed.

Lemma reads_only_get_settings : reads_only get_settings.
Proof. intros w r w' [= _ <-]. reflexivity. Qed.

Lemma reads_only_get_self : reads_only get_self.
Proof. intros w r w' [= _ <-]. reflexivity. Qed.

Lemma reads_only_get_history : reads_only get_history.
Proof. intros w r w' [= _ <-]. reflexivity. Qed.

Lemma reads_only_try_except_Exception {A} (body : M A) (handler : exn -> M A) :
  reads_only body -> (forall e, reads_only (handler e)) ->
  reads_only (try_except_Exception body handler).
Proof.
  intros Hb Hh w r w' H. unfold try_except_Exception in H.
  destruct (body w) as [[a|e] w1] eqn:Hbody.
  - injection H as <- <-. exact (Hb _ _ _ Hbody).
  - apply Hb in Hbody as ->. destruct (is_Exception e).
    + exact (Hh e _ _ _ H).
    + now injection H as <- <-.
Qed.

Create HintDb reads.

#[local] Hint Resolve reads_only_mret reads_only_raise reads_only_lift
  reads_only_ask reads_only_log reads_only_get_settings reads_only_get_self
  reads_only_get_history : reads.

Ltac reads_only_tac :=
  repeat first
    [ apply reads_only_bind; [|intros ?]
    | apply reads_only_try_except_Exception; [|intros ?]
    | solve [eauto with reads]
    | match goal with
      | |- reads_only (match ?x with _ => _ end) => destruct x
      | |- reads_only (if ?x then _ else _) => destruct x
      end ].

Lemma reads_only_load_name (locals : list string) (name : string) :
  reads_only (load_name locals name).
Proof. unfold load_name, load_global. reads_only_tac. Qed.

Lemma reads_only_prompt_or_default
    (field : PromptSection -> option string) (name : string) :
  reads_only (prompt_or_default field name).
Proof.
  unfold prompt_or_default. reads_only_tac; apply reads_only_load_name.
Qed.

Lemma reads_only_from_string (env : Env) (jenv : Environment) (source : pyval) :
  reads_only (from_string env jenv source).
Proof. unfold from_string. reads_only_tac. Qed.

Lemma reads_only_Template_render (t : CompiledTemplate) (ctx : gmap string pyval) :
  reads_only (Template_render t ctx).
Proof. unfold Template_render. reads_only_tac. Qed.

(** One completion call: the handler's answer is the outcome, the call is
    recorded with it, and nothing else changes. *)
Lemma chat_completion_effect
    (system user model : string) (temperature : pyfloat) (w : World) :
  let answer :=
    chat_completion_answer (ai_handler (this w)) (trace w) system user model
      temperature in
  chat_completion system user model temperature w =
    (answer,
     mkWorld (settings w) (this w)
       (trace w ++
        [mkEvent (chat_completion_call system user model temperature)
           (match answer with Ret _ => None | Raise e => Some e end)])).
Proof.
  unfold chat_completion. unfold_monad. cbn [settings this trace].
  destruct (chat_completion_answer _ _ _ _ _ _); reflexivity.
Qed.

(** The two ways through [_get_prediction]: it fills the diff into [vars]
    and then either fails before the model is called, or makes exactly one
    completion call, for the model it was given and at the configured
    temperature, and returns the response of the handler or raises what the
    handler raised. *)
Lemma _get_prediction_cases
    (env : Env) (model : string) (w w' : World) (r : outcome string) :
  _get_prediction env model w = (r, w') ->
  let filled :=
    set_vars (<["diff" := patches_diff (this w)]> (vars (this w))) (this w) in
  (w' = mkWorld (settings w) filled (trace w) /\ exists e, r = Raise e)
  \/ exists system user,
       let answer :=
         chat_completion_answer (ai_handler (this w)) (trace w) system user
           model (config_temperature (settings w)) in
       w' = mkWorld (settings w) filled
              (trace w ++
               [mkEvent (chat_completion_call system user model
                           (config_temperature (settings w)))
                  (match answer with Ret _ => None | Raise e => Some e end)])
       /\ r = match answer with
              | Ret (response, _) => Ret response
              | Raise e => Raise e
              end.
Proof.
  intros H filled. unfold _get_prediction in H.
  apply bind_cases in H as [(e & H & _)|([] & w1 & H1 & H)]; [discriminate|].
  injection H1 as <-. fold filled in H.
  apply bind_cases in H as [(e & H & _)|([] & w1 & H1 & H)]; [discriminate|].
  injection H1 as <-.
  (* the two prompt lookups and the two parses only read *)
  apply bind_cases in H as [(e & H & ->)|(sp & w1 & H1 & H)];
    [apply reads_only_prompt_or_default in H as ->; left; eauto|].
  apply reads_only_prompt_or_default in H1 as ->.
  apply bind_cases in H as [(e & H & ->)|(up & w1 & H1 & H)];
    [apply reads_only_prompt_or_default in H as ->; left; eauto|].
  apply reads_only_prompt_or_default in H1 as ->.
  apply bind_cases in H as [(e & H & ->)|(st & w1 & H1 & H)];
    [apply reads_only_from_string in H as ->; left; eauto|].
  apply reads_only_from_string in H1 as ->.
  apply bind_cases in H as [(e & H & ->)|(ut & w1 & H1 & H)];
    [apply reads_only_from_string in H as ->; left; eauto|].
  apply reads_only_from_string in H1 as ->.
  (* rendering only reads *)
  assert (Hrender :
            reads_only
              (try_except_Exception
                 (o ← get_self;
                  system_prompt ← Template_render st (vars o);
                  user_prompt ← Template_render ut (vars o);
                  mret (system_prompt, user_prompt))
                 (fun e =>
                    log "error" ("Error rendering prompt template: " +:+ exn_str e);;
                    raise e))).
  { reads_only_tac; apply reads_only_Template_render. }
  apply bind_cases in H as [(e & H & ->)|([s u] & w1 & H1 & H)];
    [apply Hrender in H as ->; left; eauto|].
  apply Hrender in H1 as ->.
  apply bind_cases in H as [(e & H & _)|(cfg & w1 & H1 & H)]; [discriminate|].
  injection H1 as <- <-. cbn [settings] in H.
  right. exists s, u. cbv zeta.
  rewrite bind_unfold, chat_completion_effect in H. cbv zeta in H.
  cbn [settings this trace] in H.
  destruct (chat_completion_answer _ _ _ _ _ _) as [[response reason]|e];
    injection H as <- <-; split; reflexivity.
Qed.

Lemma erase_step_set_prediction (v : pyval) (o : Self) :
  erase_step (set_prediction v o) = erase_step o.
Proof. reflexivity. Qed.

Lemma erase_step_set_patches_diff (v : pyval) (o : Self) :
  erase_step (set_patches_diff v o) = erase_step o.
Proof. reflexivity. Qed.

Lemma erase_step_fill_diff (v : pyval) (o : Self) :
  erase_step (set_vars (<["diff" := v]> (vars o)) o) = erase_step o.
Proof. unfold erase_step. cbn. now rewrite delete_insert_eq. Qed.

(** [_prepare_prediction] by the answer of the diff budgeter. *)
Lemma _prepare_prediction_cases
    (env : Env) (model : string) (w w' : World) (r : outcome unit) :
  _prepare_prediction env model w = (r, w') ->
  match get_pr_diff env (git_provider (this w)) (token_handler (this w)) model
          true false (trace w) with
  | Raise e => r = Raise e /\ w' = w
  | Ret diff =>
      let budgeted :=
        mkWorld (settings w) (set_patches_diff (VStr diff) (this w)) (trace w) in
      if truthy (VStr diff)
      then exists rg wg,
             _get_prediction env model budgeted = (rg, wg)
             /\ match rg with
                | Ret response =>
                    r = Ret tt
                    /\ w' = mkWorld (settings wg)
                              (set_prediction (VStr response) (this wg)) (trace wg)
                | Raise e => r = Raise e /\ w' = wg
                end
      else r = Ret tt
           /\ w' = mkWorld (settings w)
                     (set_prediction VNone (set_patches_diff (VStr diff) (this w)))
                     (trace w)
  end.
Proof.
  unfold _prepare_prediction. unfold_monad. cbn [settings this trace].
  destruct (get_pr_diff _ _ _ _ _ _ _) as [diff|e].
  - cbv zeta. destruct (truthy (VStr diff)).
    + destruct (_get_prediction _ _ _) as [[response|e] wg] eqn:Hg;
        intros [= <- <-]; do 2 eexists; (split; [reflexivity|]); cbn; auto.
    + intros [= <- <-]. auto.
  - intros [= <- <-]. auto.
Qed.

(** X1: whatever [_prepare_prediction] returns or raises, it leaves the
    settings alone, changes the analyzer object only in [patches_diff],
    [prediction] and the entry [diff] of [vars], and adds to the history at
    most one call, a completion call for the model it was given at the
    configured temperature: it never posts, publishes or removes a
    comment. *)
Theorem prediction_step_frame
    (env : Env) (model : string) (w w' : World) (r : outcome unit) :
  _prepare_prediction env model w = (r, w') ->
  settings w' = settings w
  /\ erase_step (this w') = erase_step (this w)
  /\ (trace w' = trace w
      \/ exists system user raised,
           trace w' = trace w ++
             [mkEvent (chat_completion_call system user model
                         (config_temperature (settings w))) raised]).
Proof.
  intros H. apply _prepare_prediction_cases in H.
  destruct (get_pr_diff _ _ _ _ _ _ _) as [diff|e].
  - cbv zeta in H. destruct (truthy (VStr diff)).
    + destruct H as (rg & wg & Hg & H).
      apply _get_prediction_cases in Hg. cbv zeta in Hg.
      cbn [settings this trace] in Hg.
      destruct Hg as [(-> & e & ->)|(system & user & -> & ->)].
      * destruct H as (_ & ->). cbn [settings this trace].
        split; [reflexivity|]. split; [|now left].
        now rewrite erase_step_fill_diff, erase_step_set_patches_diff.
      * destruct (chat_completion_answer _ _ _ _ _ _) as [[response reason]|e];
          destruct H as (_ & ->); cbn [settings this trace];
          (split; [reflexivity|]); (split; [|right; eauto]);
          now rewrite ?erase_step_set_prediction, erase_step_fill_diff,
            erase_step_set_patches_diff.
    + destruct H as (_ & ->). cbn [settings this trace]. repeat split. now left.
  - destruct H as (_ & ->). repeat split. now left.
Qed.

(** X2: a prediction step that raises leaves [self.prediction] as it was; the
    attribute is assigned only once the step has its result. *)
Theorem failed_prediction_step_keeps_prediction
    (env : Env) (model : string) (w w' : World) (e : exn) :
  _prepare_prediction env model w = (Raise e, w') ->
  prediction (this w') = prediction (this w).
Proof.
  intros H. apply _prepare_prediction_cases in H.
  destruct (get_pr_diff _ _ _ _ _ _ _) as [diff|e0].
  - cbv zeta in H. destruct (truthy (VStr diff)).
    + destruct H as (rg & wg & Hg & H).
      apply _get_prediction_cases in Hg. cbv zeta in Hg.
      cbn [settings this trace] in Hg.
      destruct Hg as [(-> & e1 & ->)|(system & user & -> & ->)].
      * destruct H as (_ & ->). reflexivity.
      * destruct (chat_completion_answer _ _ _ _ _ _) as [[response reason]|e1].
        -- destruct H as (H & _). discriminate.
        -- destruct H as (_ & ->). reflexivity.
    + destruct H as (H & _). discriminate.
  - destruct H as (_ & ->). reflexivity.
Qed.

(** X3: when the prediction step returns, [patches_diff] is the budgeted
    diff; on an empty diff the prediction is [None] and nothing was called;
    on a non-empty diff the entry [diff] of [vars] is that diff, exactly one
    completion call was made and accepted, and the prediction is the
    response the handler gave to it. *)
Theorem prediction_step_postcondition
    (env : Env) (model : string) (w w' : World) :
  _prepare_prediction env model w = (Ret tt, w') ->
  exists diff,
    get_pr_diff env (git_provider (this w)) (token_handler (this w)) model
      true false (trace w) = Ret diff
    /\ patches_diff (this w') = VStr diff
    /\ if truthy (VStr diff)
       then vars (this w') = <["diff" := VStr diff]> (vars (this w))
            /\ exists system user response reason,
                 chat_completion_answer (ai_handler (this w)) (trace w)
                   system user model (config_temperature (settings w))
                 = Ret (response, reason)
                 /\ prediction (this w') = VStr response
                 /\ trace w' = trace w ++
                      [mkEvent (chat_completion_call system user model
                                  (config_temperature (settings w))) None]
       else prediction (this w') = VNone
            /\ vars (this w') = vars (this w)
            /\ trace w' = trace w.
Proof.
  intros H. apply _prepare_prediction_cases in H.
  destruct (get_pr_diff _ _ _ _ _ _ _) as [diff|e0]; [|destruct H; discriminate].
  exists diff. split; [reflexivity|]. cbv zeta in H.
  destruct (truthy (VStr diff)).
  - destruct H as (rg & wg & Hg & H).
    apply _get_prediction_cases in Hg. cbv zeta in Hg.
    cbn [settings this trace] in Hg.
    destruct Hg as [(-> & e1 & ->)|(system & user & -> & ->)];
      [destruct H; discriminate|].
    destruct (chat_completion_answer _ _ _ _ _ _) as [[response reason]|e1] eqn:Ha;
      [|destruct H; discriminate].
    destruct H as (_ & ->). cbn [settings this trace].
    split; [reflexivity|]. split; [reflexivity|].
    exists system, user, response, reason. auto.
  - destruct H as (_ & ->). cbn. auto.
Qed.

(** X4: the overrides are all or nothing.  When the prompt section exists but
    lacks [system], [_get_prediction] raises [NameError] for
    [default_system_prompt]; when it has [system] and lacks [user], it raises
    [NameError] for [default_user_prompt]; in both cases before any template
    is parsed and before any model call. *)
Theorem partial_override_raises_NameError
    (env : Env) (model : string) (w : World) (sec : PromptSection) :
  pr_deployment_impact_prompt (settings w) = Some sec ->
  (prompt_system sec = None ->
   exists w',
     _get_prediction env model w = (Raise (NameError "default_system_prompt"), w')
     /\ trace w' = trace w)
  /\ (forall text,
        prompt_system sec = Some text ->
        prompt_user sec = None ->
        exists w',
          _get_prediction env model w = (Raise (NameError "default_user_prompt"), w')
          /\ trace w' = trace w).
Proof.
  intros Hsec. split.
  - intros Hsys. eexists. unfold _get_prediction, prompt_or_default.
    unfold_monad. cbn. rewrite Hsec, Hsys. cbn. split; reflexivity.
  - intros text Hsys Husr. eexists. unfold _get_prediction, prompt_or_default.
    unfold_monad. cbn. rewrite Hsec, Hsys. cbn. rewrite Hsec, Husr. cbn.
    split; reflexivity.
Qed.

(** ** The constructor *)

(** X5: whatever the constructor returns or raises, the only setting it may
    have changed is [config.enable_ai_metadata], forced to [False]; the only
    call it may have made is [add_ai_metadata_to_diff_files]: it posts no
    comment and calls no model; and when it raises, the analyzer object of
    the world is the one that was there. *)
Theorem constructor_frame
    (env : Env) (url : pyval) (cli : bool) (w w' : World) (r : outcome unit) :
  __init__ env url cli w = (r, w') ->
  (settings w' = settings w
   \/ settings w' = set_enable_ai_metadata false (settings w))
  /\ (trace w' = trace w
      \/ exists raised,
           trace w' = trace w ++ [mkEvent add_ai_metadata_call raised])
  /\ (forall e, r = Raise e -> this w' = this w).
Proof.
  unfold __init__. unfold_monad. cbn [settings this trace].
  destruct (get_git_provider_with_context env url) as [gp|e];
    [|intros [= <- <-]; auto].
  destruct (get_languages gp (trace w)); [|intros [= <- <-]; auto].
  destruct (get_files gp (trace w)); [|intros [= <- <-]; auto].
  destruct (get_main_pr_language env _ _); [|intros [= <- <-]; auto].
  destruct (new_ai_handler env); [|intros [= <- <-]; auto].
  destruct (get_pr_description gp (trace w)) as [[description files]|e];
    [|intros [= <- <-]; auto].
  destruct (ai_metadata_condition files (settings w)).
  - destruct (add_ai_metadata_to_diff_files_raises env (trace w));
      cbn [settings this trace]; [intros [= <- <-]; eauto 6|].
    destruct (get_pr_branch gp _); [|intros [= <- <-]; eauto 6].
    destruct (get_commit_messages gp _); [|intros [= <- <-]; eauto 6].
    destruct (new_TokenHandler env _ _ _); intros [= <- <-];
      cbn [settings this trace]; (split; [auto|]); (split; [eauto|]);
      intros ? [=].
    reflexivity.
  - cbn [settings this trace].
    destruct (get_pr_branch gp _); [|intros [= <- <-]; auto].
    destruct (get_commit_messages gp _); [|intros [= <- <-]; auto].
    destruct (new_TokenHandler env _ _ _); intros [= <- <-];
      cbn [settings this trace]; (split; [auto|]); (split; [auto|]);
      intros ? [=].
    reflexivity.
Qed.

(** X6: a constructor that returns leaves an analyzer with no diff and no
    prediction, for the URL and the mode it was given; its context has
    exactly the nine variables of the source, with an empty [diff]; and the
    variable [is_ai_metadata] is true exactly when the constructor took the
    branch that adds the AI metadata to the diff files. *)
Theorem constructed_analyzer
    (env : Env) (url : pyval) (cli : bool) (w w' : World) :
  __init__ env url cli w = (Ret tt, w') ->
  exists gp description files,
    get_git_provider_with_context env url = Ret gp
    /\ get_pr_description gp (trace w) = Ret (description, files)
    /\ git_provider (this w') = gp
    /\ patches_diff (this w') = VNone
    /\ prediction (this w') = VNone
    /\ pr_url (this w') = url
    /\ cli_mode (this w') = cli
    /\ progress (this w') = progress_text
    /\ dom (vars (this w')) =
       ({["title"]} ∪ ({["branch"]} ∪ ({["description"]} ∪ ({["language"]} ∪
        ({["diff"]} ∪ ({["commit_messages_str"]} ∪ ({["extra_instructions"]} ∪
        ({["is_ai_metadata"]} ∪ ({["date"]} ∪ ∅))))))))
        : gset string)
    /\ vars (this w') !! "diff" = Some (VStr "")
    /\ vars (this w') !! "title" = Some (VStr (pr_title gp))
    /\ vars (this w') !! "description" = Some description
    /\ vars (this w') !! "is_ai_metadata"
       = Some (VBool (ai_metadata_condition files (settings w)))
    /\ (ai_metadata_condition files (settings w) = true <->
        trace w' = trace w ++ [mkEvent add_ai_metadata_call None]).
Proof.
  unfold __init__. unfold_monad. cbn [settings this trace].
  destruct (get_git_provider_with_context env url) as [gp|e] eqn:Hgp;
    [|discriminate].
  destruct (get_languages gp (trace w)); [|discriminate].
  destruct (get_files gp (trace w)); [|discriminate].
  destruct (get_main_pr_language env _ _); [|discriminate].
  destruct (new_ai_handler env); [|discriminate].
  destruct (get_pr_description gp (trace w)) as [[description files]|e] eqn:Hdesc;
    [|discriminate].
  destruct (ai_metadata_condition files (settings w)) eqn:Hcond.
  - destruct (add_ai_metadata_to_diff_files_raises env (trace w));
      cbn [settings this trace]; [discriminate|].
    destruct (get_pr_branch gp _); [|discriminate].
    destruct (get_commit_messages gp _); [|discriminate].
    destruct (new_TokenHandler env _ _ _); [|discriminate].
    intros [= <-]. exists gp, description, files.
    cbn [settings this trace git_provider patches_diff prediction pr_url
         cli_mode progress vars].
    rewrite Hcond. unfold ai_metadata_condition in Hcond.
    apply andb_prop in Hcond as [_ Henabled]. rewrite Henabled.
    split; [reflexivity|]. split; [exact Hdesc|].
    repeat split; reflexivity.
  - cbn [settings this trace].
    destruct (get_pr_branch gp _); [|discriminate].
    destruct (get_commit_messages gp _); [|discriminate].
    destruct (new_TokenHandler env _ _ _); [|discriminate].
    intros [= <-]. exists gp, description, files.
    cbn [settings this trace git_provider patches_diff prediction pr_url
         cli_mode progress vars].
    rewrite Hcond.
    split; [reflexivity|]. split; [exact Hdesc|].
    repeat split; try reflexivity; try discriminate.
    intros Heq. apply (f_equal (@length Event)) in Heq.
    rewrite length_app in Heq. cbn in Heq. lia.
Qed.

(** ** Controllers that act through the callback *)

Lemma step_frame_refl (w : World) : step_frame w w.
Proof.
  repeat split. exists []. split; [now rewrite app_nil_r|constructor].
Qed.

Lemma step_frame_trans (a b c : World) :
  step_frame a b -> step_frame b c -> step_frame a c.
Proof.
  intros (Hs1 & He1 & d1 & Ht1 & Hf1) (Hs2 & He2 & d2 & Ht2 & Hf2).
  split; [congruence|]. split; [congruence|].
  exists (d1 ++ d2). split.
  - now rewrite Ht2, Ht1, app_assoc.
  - apply Forall_app; auto.
Qed.

Lemma _prepare_prediction_keeps_step_frame (env : Env) (model : string) :
  keeps step_frame (_prepare_prediction env model).
Proof.
  intros w r w' H. apply _prepare_prediction_cases in H.
  destruct (get_pr_diff _ _ _ _ _ _ _) as [diff|e].
  - cbv zeta in H. destruct (truthy (VStr diff)).
    + destruct H as (rg & wg & Hg & H).
      apply _get_prediction_cases in Hg. cbv zeta in Hg.
      cbn [settings this trace] in Hg.
      destruct Hg as [(-> & e & ->)|(system & user & -> & ->)].
      * destruct H as (_ & ->). split; [reflexivity|]. split.
        -- cbn [this].
           now rewrite erase_step_fill_diff, erase_step_set_patches_diff.
        -- exists []. cbn [trace]. split; [now rewrite app_nil_r|constructor].
      * destruct (chat_completion_answer _ _ _ _ _ _) as [[response reason]|e];
          destruct H as (_ & ->); (split; [reflexivity|]); split;
          cbn [this trace];
          try (now rewrite ?erase_step_set_prediction, erase_step_fill_diff,
                 erase_step_set_patches_diff);
          (eexists; split; [reflexivity|]); repeat constructor.
    + destruct H as (_ & ->). split; [reflexivity|]. split; [reflexivity|].
      exists []. cbn [trace]. split; [now rewrite app_nil_r|constructor].
  - destruct H as (_ & ->). apply step_frame_refl.
Qed.

(** The controller of section 4.4 acts through its callback. *)
Section SpecController.
Variable R : World -> World -> Prop.
Hypothesis R_refl : forall w, R w w.
Hypothesis R_trans : forall a b c, R a b -> R b c -> R a c.
Variable f : string -> M unit.
Hypothesis f_keeps : forall model, keeps R (f model).

Lemma attempt_model_keeps (attempts : nat) (model : string) :
  keeps R (attempt_model attempts f model).
Proof.
  induction attempts as [|k IH]; intros w r w' H; cbn [attempt_model] in H.
  - injection H as _ <-. apply R_refl.
  - destruct (f model w) as [[[]|e] w1] eqn:Hf.
    + injection H as _ <-. exact (f_keeps _ _ _ _ Hf).
    + pose proof (f_keeps _ _ _ _ Hf) as Hstep.
      destruct e; try (injection H as _ <-; exact Hstep).
      exact (R_trans _ _ _ Hstep (IH _ _ _ H)).
Qed.

Lemma try_models_keeps (ceiling : nat) (models : list string) :
  keeps R (try_models ceiling f models).
Proof.
  induction models as [|model rest IH]; intros w r w' H; cbn [try_models] in H.
  - injection H as _ <-. apply R_refl.
  - apply bind_cases in H as [(e & H & _)|(ok & w1 & H1 & H)].
    + exact (attempt_model_keeps _ _ _ _ _ H).
    + pose proof (attempt_model_keeps _ _ _ _ _ H1) as Hstep.
      destruct ok.
      * injection H as _ <-. exact Hstep.
      * exact (R_trans _ _ _ Hstep (IH _ _ _ H)).
Qed.
End SpecController.

Lemma spec_controller_acts_through_callback (env : Env) (models : list string)
    (ceiling : nat) :
  retry_with_fallback_models env = spec_retry_with_fallback_models models ceiling ->
  acts_through_callback env.
Proof.
  intros Heq R Hrefl Htrans f model_type Hf. rewrite Heq.
  unfold spec_retry_with_fallback_models.
  apply try_models_keeps; assumption.
Qed.

(** ** What a run adds to the history *)

Lemma world_eta' (w : World) : mkWorld (settings w) (this w) (trace w) = w.
Proof. destruct w; reflexivity. Qed.

Lemma count_calls_app (q : Call -> bool) (h1 h2 : history) :
  count_calls q (h1 ++ h2) = (count_calls q h1 + count_calls q h2)%nat.
Proof. unfold count_calls. now rewrite List.filter_app, length_app. Qed.

Lemma no_accepted_removal_app (h1 h2 : history) :
  no_accepted_removal (h1 ++ h2)
  = no_accepted_removal h1 && no_accepted_removal h2.
Proof. unfold no_accepted_removal. apply forallb_app. Qed.

Lemma no_accepted_removal_removelast (h : history) :
  no_accepted_removal h = true -> removal_only_last h = true.
Proof.
  unfold removal_only_last, no_accepted_removal.
  induction h as [|e h IH]; [reflexivity|].
  cbn [forallb]. intros [He Hh]%andb_prop.
  destruct h as [|e' h']; [reflexivity|].
  cbn [removelast forallb]. rewrite He. exact (IH Hh).
Qed.

Lemma removal_only_last_app (h1 h2 : history) :
  no_accepted_removal h1 = true -> removal_only_last h2 = true ->
  removal_only_last (h1 ++ h2) = true.
Proof.
  intros H1 H2. destruct h2 as [|e h2].
  - rewrite app_nil_r. now apply no_accepted_removal_removelast.
  - unfold removal_only_last. rewrite removelast_app by discriminate.
    rewrite no_accepted_removal_app, H1. exact H2.
Qed.

Lemma model_calls_only (q : Call -> bool) (calls : history) :
  (forall c, is_model_call c = true -> q c = false) ->
  Forall (fun e => is_model_call (ev_call e) = true) calls ->
  count_calls q calls = 0%nat.
Proof.
  intros Hq. induction 1 as [|e calls He _ IH]; [reflexivity|].
  rewrite count_calls_cons, (Hq _ He). exact IH.
Qed.

Lemma model_calls_no_removal (calls : history) :
  Forall (fun e => is_model_call (ev_call e) = true) calls ->
  no_accepted_removal calls = true.
Proof.
  induction 1 as [|e calls He _ IH]; [reflexivity|].
  cbn [no_accepted_removal forallb]. fold (no_accepted_removal calls).
  rewrite IH. unfold is_accepted_removal.
  destruct (ev_call e); try discriminate; reflexivity.
Qed.

(** The handler of [run]: it returns [None], leaves settings and analyzer as
    they are, does nothing at all when publishing is disabled, and otherwise
    posts the failure notice and, if that is accepted, tries the removal. *)
Lemma run_handler_summary (e : exn) (w : World) :
  exists post,
    run_handler e w =
      (Ret VNone, mkWorld (settings w) (this w) (trace w ++ post))
    /\ count_calls is_marker_post post = 0%nat
    /\ (config_publish_output (settings w) = false -> post = [])
    /\ removal_only_last post = true
    /\ (count_calls is_publication post <= 1)%nat.
Proof.
  unfold run_handler, try_except, publish_comment, remove_initial_comment.
  unfold_monad. cbn [settings this trace].
  destruct (config_publish_output (settings w)); cbn [settings this trace].
  2: { exists []. rewrite app_nil_r, world_eta'. repeat split; auto. }
  destruct (publish_comment_raises _ _ _ _); cbn [settings this trace].
  { eexists. split; [reflexivity|]. repeat split; try discriminate; cbn; lia. }
  destruct (remove_initial_comment_raises _ _); cbn [settings this trace];
    rewrite <- app_assoc; eexists; (split; [reflexivity|]);
    repeat split; try discriminate; cbn; lia.
Qed.

(** [run_body] is the first steps followed by [run_conclude]. *)
Lemma run_body_conclude
    (env : Env) (w w1 w2 : World) (f : string) (fs : list string) :
  get_files (git_provider (this w)) (trace w) = Ret (f :: fs) ->
  post_progress w = (Ret tt, w1) ->
  retry_with_fallback_models env (_prepare_prediction env) REGULAR w1
    = (Ret tt, w2) ->
  run_body env w = run_conclude w2.
Proof.
  intros Hfiles Hpost Hretry. unfold run_body.
  rewrite (bind_Ret get_self _ w w (this w)) by reflexivity.
  rewrite (bind_Ret (ask _) _ w w (f :: fs))
    by (unfold ask; now rewrite Hfiles).
  rewrite (bind_Ret (log _ _) _ w w tt) by reflexivity.
  rewrite (bind_Ret get_settings _ w w (settings w)) by reflexivity.
  rewrite (bind_Ret _ _ w w1 tt) by exact Hpost.
  rewrite (bind_Ret _ _ w1 w2 tt) by exact Hretry.
  reflexivity.
Qed.

(** What [run_conclude] adds: no marker, no lasting comment when publishing
    is disabled and at most one otherwise; when it returns, an accepted
    removal can only be its last call and the settings changed, if at all,
    by the artifact of the unpublished report; when it raises, no removal
    was accepted and the settings are as before. *)
Lemma run_conclude_summary (w2 wb : World) (rb : outcome pyval) :
  run_conclude w2 = (rb, wb) ->
  exists post,
    trace wb = trace w2 ++ post
    /\ this wb = this w2
    /\ count_calls is_marker_post post = 0%nat
    /\ (config_publish_output (settings w2) = false ->
        count_calls is_publication post = 0%nat)
    /\ (count_calls is_publication post <= 1)%nat
    /\ match rb with
       | Ret v =>
           v = VNone
           /\ removal_only_last post = true
           /\ (settings wb = settings w2
               \/ (config_publish_output (settings w2) = false
                   /\ exists p,
                        prediction (this w2) = VStr p
                        /\ truthy (VStr p) = true
                        /\ settings wb =
                           set_data {[ "artifact" := report_header +:+ p ]}
                             (settings w2)))
       | Raise e => no_accepted_removal post = true /\ settings wb = settings w2
       end.
Proof.
  unfold run_conclude, _prepare_deployment_impact_analysis,
    publish_persistent_comment, publish_comment, remove_initial_comment, print.
  unfold_monad. cbn [settings this trace].
  destruct (prediction (this w2)) as [|b|p|q] eqn:Hpred; cbn [truthy negb].
  all: try destruct b; cbn [negb].
  all: try destruct (negb (String.eqb p "")) eqn:Htruthy; cbn [negb].
  all: rewrite ?Hpred; cbn [settings this trace].
  all: try destruct (config_publish_output (settings w2)) eqn:Hpublish.
  all: try destruct (persistent_comment_enabled (settings w2)).
  all: cbn [settings this trace].
  all: repeat (match goal with
               | |- context [match ?x with Some _ => _ | None => _ end] =>
                   destruct x
               | |- context [if cli_mode ?o then _ else _] =>
                   destruct (cli_mode o)
               end; cbn [settings this trace]).
  all: intros [= <- <-]; cbn [settings this trace].
  all: rewrite <- ?app_assoc.
  all: first [ eexists; split; [reflexivity|]
             | exists []; split; [now rewrite app_nil_r|] ].
  all: cbn [app].
  all: repeat split; try reflexivity; try discriminate; eauto;
       try (cbn; lia).
  all: try (right; split; [reflexivity|]; eexists; split; [reflexivity|];
            split; [exact Htruthy|reflexivity]).
Qed.

(** The marker step: nothing when publishing is disabled, else the temporary
    comment, recorded with what the provider answered. *)
Lemma post_progress_cases (w w1 : World) (r1 : outcome unit) :
  post_progress w = (r1, w1) ->
  settings w1 = settings w /\ this w1 = this w
  /\ ((config_publish_output (settings w) = false
       /\ r1 = Ret tt /\ trace w1 = trace w)
      \/ (config_publish_output (settings w) = true
          /\ exists raised,
               trace w1 = trace w ++
                 [mkEvent (publish_comment_call (progress (this w)) true) raised]
               /\ r1 = match raised with
                       | None => Ret tt
                       | Some e => Raise e
                       end)).
Proof.
  unfold post_progress, publish_comment. unfold_monad.
  cbn [settings this trace].
  destruct (config_publish_output (settings w)).
  - destruct (publish_comment_raises _ _ _ _) as [e|];
      intros [= <- <-]; cbn [settings this trace]; repeat split; right;
      (split; [reflexivity|]); eexists; split; reflexivity.
  - intros [= <- <-]. repeat split. now left.
Qed.

(** [run_body] up to the prediction step. *)
Lemma run_body_prefix (env : Env) (w : World) (f : string) (fs : list string) :
  get_files (git_provider (this w)) (trace w) = Ret (f :: fs) ->
  run_body env w =
    (post_progress;;
     retry_with_fallback_models env (_prepare_prediction env) REGULAR;;
     run_conclude) w.
Proof.
  intros Hfiles. unfold run_body.
  rewrite (bind_Ret get_self _ w w (this w)) by reflexivity.
  rewrite (bind_Ret (ask _) _ w w (f :: fs))
    by (unfold ask; now rewrite Hfiles).
  reflexivity.
Qed.

Lemma run_body_summary (env : Env) (w wb : World) (rb : outcome pyval) :
  acts_through_callback env ->
  run_body env w = (rb, wb) ->
  exists delta,
    trace wb = trace w ++ delta
    /\ erase_step (this wb) = erase_step (this w)
    /\ (count_calls is_marker_post delta <= 1)%nat
    /\ (config_publish_output (settings w) = false ->
        count_calls is_marker_post delta = 0%nat
        /\ count_calls is_publication delta = 0%nat)
    /\ (count_calls is_publication delta <= 1)%nat
    /\ match rb with
       | Ret v =>
           v = VNone
           /\ removal_only_last delta = true
           /\ (settings wb = settings w
               \/ (config_publish_output (settings w) = false
                   /\ exists p,
                        prediction (this wb) = VStr p
                        /\ truthy (VStr p) = true
                        /\ settings wb =
                           set_data {[ "artifact" := report_header +:+ p ]}
                             (settings w)))
       | Raise e => no_accepted_removal delta = true /\ settings wb = settings w
       end.
Proof.
  intros Hacts Hbody.
  assert (Hnil : forall w0 : World, trace w0 = trace w0 ++ [])
    by (intros; now rewrite app_nil_r).
  destruct (get_files (git_provider (this w)) (trace w)) as [[|f fs]|e]
    eqn:Hfiles.
  - (* no changed file *)
    unfold run_body in Hbody. unfold_monad. cbn in Hbody.
    rewrite Hfiles in Hbody. injection Hbody as <- <-.
    exists []. repeat split; auto.
  - rewrite (run_body_prefix env w f fs Hfiles) in Hbody.
    apply bind_cases in Hbody as [(e1 & Hpost & ->)|([] & w1 & Hpost & Hbody)].
    + (* the marker was refused *)
      apply post_progress_cases in Hpost
        as (Hs & Ht & [(_ & [=] & _)|(Hpub & raised & Htr & Hr)]).
      destruct raised as [e|]; [|discriminate].
      eexists. split; [exact Htr|]. rewrite Ht, Hpub.
      repeat split; try reflexivity; try discriminate; auto.
    + apply post_progress_cases in Hpost as (Hs1 & Ht1 & Hpre).
      assert (Hpre' : exists pre,
                trace w1 = trace w ++ pre
                /\ (count_calls is_marker_post pre <= 1)%nat
                /\ (config_publish_output (settings w) = false -> pre = [])
                /\ count_calls is_publication pre = 0%nat
                /\ no_accepted_removal pre = true).
      { destruct Hpre as [(Hpub & _ & Htr)|(Hpub & raised & Htr & _)].
        - exists []. rewrite Htr. repeat split; auto.
        - eexists. split; [exact Htr|]. rewrite Hpub.
          repeat split; try discriminate; cbn; lia. }
      clear Hpre. destruct Hpre' as (pre & Htr1 & Hm1 & Hoff1 & Hp1 & Hn1).
      apply bind_cases in Hbody as [(e2 & Hretry & ->)|([] & w2 & Hretry & Hbody)].
      * (* the prediction step raised *)
        apply (Hacts step_frame step_frame_refl step_frame_trans
                 (_prepare_prediction env) REGULAR
                 (_prepare_prediction_keeps_step_frame env))
          in Hretry as (Hs2 & He2 & calls & Htr2 & Hcalls).
        exists (pre ++ calls). rewrite Htr2, Htr1, He2, Ht1, Hs2, Hs1, app_assoc.
        rewrite !count_calls_app, no_accepted_removal_app, Hn1, Hp1.
        rewrite (model_calls_only is_marker_post calls)
          by (auto; intros []; auto; discriminate).
        rewrite (model_calls_only is_publication calls)
          by (auto; intros []; auto; discriminate).
        rewrite (model_calls_no_removal calls Hcalls).
        repeat split; try reflexivity; try lia.
        -- rewrite (Hoff1 H). reflexivity.
      * apply (Hacts step_frame step_frame_refl step_frame_trans
                 (_prepare_prediction env) REGULAR
                 (_prepare_prediction_keeps_step_frame env))
          in Hretry as (Hs2 & He2 & calls & Htr2 & Hcalls).
        apply run_conclude_summary in Hbody
          as (post & Htr3 & Ht3 & Hm3 & Hoff3 & Hp3 & Hout).
        exists (pre ++ calls ++ post).
        rewrite Htr3, Htr2, Htr1, Ht3, He2, Ht1, <- !app_assoc.
        rewrite !count_calls_app, Hp1, Hm3.
        rewrite (model_calls_only is_marker_post calls)
          by (auto; intros []; auto; discriminate).
        rewrite (model_calls_only is_publication calls)
          by (auto; intros []; auto; discriminate).
        rewrite Hs2, Hs1 in Hoff3, Hout.
        split; [reflexivity|]. split; [reflexivity|]. split; [lia|].
        split; [|split; [lia|]].
        -- intros Hoff. rewrite (Hoff1 Hoff), (Hoff3 Hoff). auto.
        -- assert (Hnone : no_accepted_removal (pre ++ calls) = true).
           { rewrite no_accepted_removal_app, Hn1.
             exact (model_calls_no_removal calls Hcalls). }
           destruct rb as [v|e].
           ++ destruct Hout as (-> & Hlast & Hsettings).
              split; [reflexivity|]. split.
              ** rewrite app_assoc. now apply removal_only_last_app.
              ** destruct Hsettings
                   as [Hsame|(Hoff & p & Hpred & Htruthy & Hset)];
                   [left; exact Hsame|].
                 right. split; [exact Hoff|]. exists p. auto.
           ++ destruct Hout as (Hnone3 & Hsame). split; [|exact Hsame].
              rewrite app_assoc, no_accepted_removal_app, Hnone. exact Hnone3.
  - (* the provider failed to list the files *)
    unfold run_body in Hbody. unfold_monad. cbn in Hbody.
    rewrite Hfiles in Hbody. injection Hbody as <- <-.
    exists []. repeat split; auto.
Qed.

(** One run, from start to end, under a controller that acts through the
    callback. *)
Lemma run_summary (env : Env) (w w' : World) (r : outcome pyval) :
  acts_through_callback env ->
  run env w = (r, w') ->
  exists delta,
    trace w' = trace w ++ delta
    /\ erase_step (this w') = erase_step (this w)
    /\ (count_calls is_marker_post delta <= 1)%nat
    /\ (config_publish_output (settings w) = false ->
        count_calls is_marker_post delta = 0%nat
        /\ count_calls is_publication delta = 0%nat)
    /\ (count_calls is_publication delta <= 2)%nat
    /\ removal_only_last delta = true
    /\ (settings w' = settings w
        \/ (config_publish_output (settings w) = false
            /\ r = Ret VNone
            /\ exists p,
                 prediction (this w') = VStr p
                 /\ truthy (VStr p) = true
                 /\ settings w' =
                    set_data {[ "artifact" := report_header +:+ p ]}
                      (settings w))).
Proof.
  intros Hacts. unfold run, try_except_Exception.
  destruct (run_body env w) as [[v|e] wb] eqn:Hbody;
    apply (run_body_summary env w wb _ Hacts) in Hbody
      as (delta & Htr & He & Hm & Hoff & Hp & Hout).
  - intros [= <- <-]. destruct Hout as (-> & Hlast & Hsettings).
    exists delta. repeat split; auto; try lia.
    + apply Hoff; assumption.
    + apply Hoff; assumption.
    + destruct Hsettings as [Hsame|(Hdis & p & Hpred & Htruthy & Hset)];
        [now left|].
      right. eauto 6.
  - destruct Hout as (Hnone & Hsame). destruct (is_Exception e).
    + destruct (run_handler_summary e wb) as (post & Hh & Hm' & Hoff' & Hlast & Hp').
      rewrite Hh. intros [= <- <-]. cbn [settings this trace].
      exists (delta ++ post). rewrite Htr, app_assoc, !count_calls_app, Hm'.
      rewrite Hsame in Hoff'.
      split; [reflexivity|]. split; [exact He|]. split; [lia|].
      split; [|split; [lia|split; [|now left]]].
      * intros Hdis. rewrite (Hoff' Hdis). cbn.
        destruct (Hoff Hdis) as [-> ->]. auto.
      * now apply removal_only_last_app.
    + intros [= <- <-]. exists delta.
      repeat split; auto; try lia; try (apply Hoff; assumption).
      now apply no_accepted_removal_removelast.
Qed.

(** ** Properties of a whole run *)

(** X7: under a controller that acts through the callback, one run posts the
    provisional marker at most once, whatever path it takes. *)
Theorem marker_posted_at_most_once
    (env : Env) (w w' : World) (r : outcome pyval) :
  acts_through_callback env ->
  run env w = (r, w') ->
  exists delta,
    trace w' = trace w ++ delta
    /\ (count_calls is_marker_post delta <= 1)%nat.
Proof.
  intros Hacts Hrun.
  destruct (run_summary env w w' r Hacts Hrun) as (delta & Htr & _ & Hm & _).
  eauto.
Qed.

(** X8: with publishing disabled, a run puts nothing on the pull request: no
    provisional marker, no report and no failure notice, whether it succeeds
    or fails. *)
Theorem nothing_posted_when_publishing_disabled
    (env : Env) (w w' : World) (r : outcome pyval) :
  acts_through_callback env ->
  config_publish_output (settings w) = false ->
  run env w = (r, w') ->
  exists delta,
    trace w' = trace w ++ delta
    /\ count_calls is_marker_post delta = 0%nat
    /\ count_calls is_publication delta = 0%nat.
Proof.
  intros Hacts Hoff Hrun.
  destruct (run_summary env w w' r Hacts Hrun) as (delta & Htr & _ & _ & H & _).
  destruct (H Hoff). eauto.
Qed.

Lemma removal_only_last_split (l1 l2 : history) (e : Event) :
  removal_only_last (l1 ++ e :: l2) = true ->
  is_accepted_removal e = true ->
  l2 = [].
Proof.
  intros Hlast He. destruct l2 as [|e2 l2]; [reflexivity|exfalso].
  unfold removal_only_last in Hlast.
  rewrite removelast_app in Hlast by discriminate.
  rewrite no_accepted_removal_app in Hlast.
  apply andb_prop in Hlast as [_ Hlast].
  change (removelast (e :: e2 :: l2)) with (e :: removelast (e2 :: l2)) in Hlast.
  cbn [no_accepted_removal forallb] in Hlast. rewrite He in Hlast.
  discriminate.
Qed.



(** X11: when the report has been published and the removal of the marker
    then raises an [Exception], the handler posts the failure notice all the
    same: the pull request carries the report and, after it, the notice that
    the analysis failed. *)
Theorem failure_notice_follows_published_report
    (env : Env) (w w1 w2 : World) (f : string) (fs : list string) (p : string)
    (e : exn) :
  get_files (git_provider (this w)) (trace w) = Ret (f :: fs) ->
  post_progress w = (Ret tt, w1) ->
  retry_with_fallback_models env (_prepare_prediction env) REGULAR w1
    = (Ret tt, w2) ->
  prediction (this w2) = VStr p ->
  truthy (VStr p) = true ->
  config_publish_output (settings w2) = true ->
  let report := report_header +:+ p in
  let published := mkEvent (report_call (settings w2) report) None in
  report_call_raises (git_provider (this w2)) (trace w2) (settings w2) report
    = None ->
  remove_initial_comment_raises (git_provider (this w2))
    (trace w2 ++ [published]) = Some e ->
  is_Exception e = true ->
  exists noticed rest,
    run env w =
      (Ret VNone,
       mkWorld (settings w2) (this w2)
         (trace w2 ++
          published :: mkEvent remove_initial_comment_call (Some e) ::
          mkEvent (publish_comment_call failure_notice false) noticed :: rest)).
Proof.
  intros Hfiles Hpost Hretry Hpred Htruthy Hpublish report published
    Haccepted Hremove He.
  pose proof (run_predicted_publish env w w1 w2 f fs p Hfiles Hpost Hretry
                Hpred Htruthy Hpublish) as Hrun.
  cbv zeta in Hrun. fold report in Hrun. rewrite Haccepted in Hrun.
  fold published in Hrun. rewrite Hremove, He in Hrun. rewrite Hrun.
  match goal with
  | |- context [run_handler e ?w0] => set (wh := w0)
  end.
  destruct (publish_comment_raises (git_provider (this wh)) (trace wh)
              failure_notice false) as [e'|] eqn:Hnotice.
  - rewrite (run_handler_notice_refused e e' wh Hpublish Hnotice).
    exists (Some e'), []. subst wh. cbn [settings this trace].
    now rewrite <- app_assoc.
  - pose proof (run_handler_notice_accepted e wh Hpublish Hnotice) as Hh.
    cbv zeta in Hh. rewrite Hh. eexists None, [_].
    subst wh. cbn [settings this trace]. now rewrite <- !app_assoc.
Qed.

(** X12: with publishing disabled, so that no marker was ever posted, a run
    that ends without a prediction still calls [remove_initial_comment];
    if that call raises an [Exception] the handler stays silent and [run]
    returns [None]. *)
Theorem removal_attempted_without_marker
    (env : Env) (w w2 : World) (f : string) (fs : list string) :
  get_files (git_provider (this w)) (trace w) = Ret (f :: fs) ->
  config_publish_output (settings w) = false ->
  retry_with_fallback_models env (_prepare_prediction env) REGULAR w
    = (Ret tt, w2) ->
  truthy (prediction (this w2)) = false ->
  config_publish_output (settings w2) = false ->
  let raised :=
    remove_initial_comment_raises (git_provider (this w2)) (trace w2) in
  run env w =
    (match raised with
     | Some e => if is_Exception e then Ret VNone else Raise e
     | None => Ret VNone
     end,
     mkWorld (settings w2) (this w2)
       (trace w2 ++ [mkEvent remove_initial_comment_call raised])).
Proof.
  intros Hfiles Hoff Hretry Hpred Hoff2 raised.
  assert (Hpost : post_progress w = (Ret tt, w)).
  { unfold post_progress. unfold_monad. now rewrite Hoff. }
  unfold run, try_except_Exception.
  rewrite (run_body_after_prediction env w w w2 f fs Hfiles Hpost Hretry).
  rewrite Hpred. cbn [negb]. unfold remove_initial_comment. unfold_monad.
  cbn [settings this trace]. fold raised.
  destruct raised as [e|]; [|reflexivity].
  destruct (is_Exception e); [|reflexivity].
  unfold run_handler, try_except. unfold_monad. cbn [settings this trace].
  now rewrite Hoff2.
Qed.

(** ** The endpoint and the shared settings *)

(** The constructor leaves the publishing switch and the stored data of the
    settings alone. *)
Lemma __init___keeps_publishing_and_data
    (env : Env) (url : pyval) (cli : bool) (w w' : World) (r : outcome unit) :
  __init__ env url cli w = (r, w') ->
  config_publish_output (settings w') = config_publish_output (settings w)
  /\ data (settings w') = data (settings w).
Proof.
  unfold __init__. unfold_monad. cbn [settings this trace].
  destruct (get_git_provider_with_context env url) as [gp|e];
    [|intros [= <- <-]; auto].
  destruct (get_languages gp (trace w)); [|intros [= <- <-]; auto].
  destruct (get_files gp (trace w)); [|intros [= <- <-]; auto].
  destruct (get_main_pr_language env _ _); [|intros [= <- <-]; auto].
  destruct (new_ai_handler env); [|intros [= <- <-]; auto].
  destruct (get_pr_description gp (trace w)) as [[description files]|e];
    [|intros [= <- <-]; auto].
  destruct (ai_metadata_condition files (settings w)).
  - destruct (add_ai_metadata_to_diff_files_raises env (trace w));
      cbn [settings this trace]; [intros [= <- <-]; auto|].
    destruct (get_pr_branch gp _); [|intros [= <- <-]; auto].
    destruct (get_commit_messages gp _); [|intros [= <- <-]; auto].
    destruct (new_TokenHandler env _ _ _); intros [= <- <-]; auto.
  - cbn [settings this trace].
    destruct (get_pr_branch gp _); [|intros [= <- <-]; auto].
    destruct (get_commit_messages gp _); [|intros [= <- <-]; auto].
    destruct (new_TokenHandler env _ _ _); intros [= <- <-]; auto.
Qed.



(** * The further properties on concrete pull requests *)

Lemma fixture_acts_through_callback
    (files : list string) (refuse : option exn)
    (answer : outcome (string * string)) (diff : string) :
  acts_through_callback (env files refuse answer diff).
Proof.
  exact (spec_controller_acts_through_callback
           (env files refuse answer diff) ["gpt-4o"] 2 eq_refl).
Qed.

Lemma env_stuck_marker_acts_through_callback :
  acts_through_callback env_stuck_marker.
Proof.
  exact (spec_controller_acts_through_callback env_stuck_marker
           ["gpt-4o"] 2 eq_refl).
Qed.

Lemma prediction_step_frame_witness :
  settings (snd (_prepare_prediction env_ok "gpt-4o" published_world))
    = settings published_world
  /\ erase_step (this (snd (_prepare_prediction env_ok "gpt-4o" published_world)))
     = erase_step (this published_world)
  /\ (trace (snd (_prepare_prediction env_ok "gpt-4o" published_world))
        = trace published_world
      \/ exists system user raised,
           trace (snd (_prepare_prediction env_ok "gpt-4o" published_world))
           = trace published_world ++
               [mkEvent (chat_completion_call system user "gpt-4o"
                           (config_temperature (settings published_world)))
                  raised]).
Proof.
  apply (prediction_step_frame env_ok "gpt-4o" published_world
           (snd (_prepare_prediction env_ok "gpt-4o" published_world))
           (fst (_prepare_prediction env_ok "gpt-4o" published_world))).
  vm_compute. reflexivity.
Defined.

Lemma failed_prediction_step_keeps_prediction_witness :
  prediction
    (this (snd (_prepare_prediction env_down "gpt-4o"
                  (constructed env_down (the_settings true None title_prompts)))))
  = prediction
      (this (constructed env_down (the_settings true None title_prompts))).
Proof.
  apply (failed_prediction_step_keeps_prediction env_down "gpt-4o"
           (constructed env_down (the_settings true None title_prompts))
           (snd (_prepare_prediction env_down "gpt-4o"
                   (constructed env_down (the_settings true None title_prompts))))
           (TransientFailure "rate limited")).
  vm_compute. reflexivity.
Defined.

Lemma prediction_step_postcondition_witness :
  exists diff,
    get_pr_diff env_ok (git_provider (this published_world))
      (token_handler (this published_world)) "gpt-4o" true false
      (trace published_world) = Ret diff
    /\ patches_diff
         (this (snd (_prepare_prediction env_ok "gpt-4o" published_world)))
       = VStr diff.
Proof.
  destruct (prediction_step_postcondition env_ok "gpt-4o" published_world
              (snd (_prepare_prediction env_ok "gpt-4o" published_world)))
    as (diff & Hdiff & Hpatches & _).
  - vm_compute. reflexivity.
  - exists diff. split; assumption.
Defined.

Lemma partial_override_raises_NameError_witness :
  exists w',
    _get_prediction env_ok "gpt-4o"
      (constructed env_ok (the_settings true None system_only_prompts))
    = (Raise (NameError "default_user_prompt"), w')
    /\ trace w'
       = trace (constructed env_ok (the_settings true None system_only_prompts)).
Proof.
  apply (proj2 (partial_override_raises_NameError env_ok "gpt-4o"
                  (constructed env_ok (the_settings true None system_only_prompts))
                  (mkPromptSection (Some "You analyze deployments.") None)
                  eq_refl)
           "You analyze deployments."); reflexivity.
Defined.

Lemma constructor_frame_witness :
  (settings published_world = the_settings true None title_prompts
   \/ settings published_world
      = set_enable_ai_metadata false (the_settings true None title_prompts))
  /\ (trace published_world = []
      \/ exists raised,
           trace published_world = [] ++ [mkEvent add_ai_metadata_call raised])
  /\ (forall e,
        fst (__init__ env_ok url false
               (world (the_settings true None title_prompts))) = Raise e ->
        this published_world = blank).
Proof.
  apply (constructor_frame env_ok url false
           (world (the_settings true None title_prompts))
           published_world
           (fst (__init__ env_ok url false
                   (world (the_settings true None title_prompts))))).
  vm_compute. reflexivity.
Defined.

Lemma constructed_analyzer_witness :
  exists gp description files,
    get_git_provider_with_context env_ok url = Ret gp
    /\ get_pr_description gp [] = Ret (description, files)
    /\ git_provider (this published_world) = gp
    /\ patches_diff (this published_world) = VNone
    /\ prediction (this published_world) = VNone.
Proof.
  destruct (constructed_analyzer env_ok url false
              (world (the_settings true None title_prompts)) published_world)
    as (gp & description & files & H1 & H2 & H3 & H4 & H5 & _).
  - vm_compute. reflexivity.
  - exists gp, description, files. auto.
Defined.

Lemma marker_posted_at_most_once_witness :
  exists delta,
    trace (snd (run env_ok published_world)) = trace published_world ++ delta
    /\ (count_calls is_marker_post delta <= 1)%nat.
Proof.
  apply (marker_posted_at_most_once env_ok published_world
           (snd (run env_ok published_world))
           (fst (run env_ok published_world))
           (fixture_acts_through_callback _ _ _ _)).
  vm_compute. reflexivity.
Defined.

Lemma nothing_posted_when_publishing_disabled_witness :
  exists delta,
    trace (snd (run env_ok unpublished_world)) = trace unpublished_world ++ delta
    /\ count_calls is_marker_post delta = 0%nat
    /\ count_calls is_publication delta = 0%nat.
Proof.
  apply (nothing_posted_when_publishing_disabled env_ok unpublished_world
           (snd (run env_ok unpublished_world))
           (fst (run env_ok unpublished_world))
           (fixture_acts_through_callback _ _ _ _)).
  - vm_compute. reflexivity.
  - vm_compute. reflexivity.
Defined.



Lemma failure_notice_follows_published_report_witness :
  exists noticed rest,
    trace (snd (run env_stuck_marker
                  (constructed env_stuck_marker
                     (the_settings true None title_prompts))))
    = trace (after_prediction env_stuck_marker
               (constructed env_stuck_marker
                  (the_settings true None title_prompts)))
      ++ mkEvent (publish_comment_call (report_header +:+ "Risk: Low") false) None
         :: mkEvent remove_initial_comment_call
              (Some (OtherException "404 Not Found"))
         :: mkEvent (publish_comment_call failure_notice false) noticed :: rest.
Proof.
  destruct (failure_notice_follows_published_report env_stuck_marker
              (constructed env_stuck_marker (the_settings true None title_prompts))
              (after_marker
                 (constructed env_stuck_marker
                    (the_settings true None title_prompts)))
              (after_prediction env_stuck_marker
                 (constructed env_stuck_marker
                    (the_settings true None title_prompts)))
              "cache.py" [] "Risk: Low" (OtherException "404 Not Found"))
    as (noticed & rest & Hrun).
  1-9: vm_compute; reflexivity.
  exists noticed, rest. rewrite Hrun. reflexivity.
Defined.

Lemma removal_attempted_without_marker_witness :
  run env_down (constructed env_down (the_settings false None title_prompts))
  = (Ret VNone,
     mkWorld
       (settings (after_prediction env_down
                    (constructed env_down (the_settings false None title_prompts))))
       (this (after_prediction env_down
                (constructed env_down (the_settings false None title_prompts))))
       (trace (after_prediction env_down
                 (constructed env_down (the_settings false None title_prompts)))
        ++ [mkEvent remove_initial_comment_call None])).
Proof.
  apply (removal_attempted_without_marker env_down
           (constructed env_down (the_settings false None title_prompts))
           (after_prediction env_down
              (constructed env_down (the_settings false None title_prompts)))
           "cache.py" []).
  all: vm_compute; reflexivity.
Defined.


